(** * DataStats: the statistics engine of [app/statistics/stats.py]

    The four operations [get_mean], [get_variance], [get_std_dev] and
    [get_sigma] are embedded over binary64 numbers (Rocq's primitive floats,
    which are the IEEE 754 doubles that Python's [float] and pandas'
    [float64] columns hold).

    - [Py] models the part of the Python runtime the module relies on:
      dictionaries as objects in a store, [print], exceptions, [min] and
      float division.
    - [Pandas] models the part of pandas the module calls:
      [df.groupby('Sku')['Value']] followed by [.mean()], [.var()] or
      [.std()], and [Series.to_dict()].  The aggregates follow pandas'
      kernels [group_mean] and [group_var] (pandas/_libs/groupby.pyx),
      which leave out missing (NaN) entries.
    - [Stats] is the module itself.

    The embedding comes first, then the vocabulary of the statements, the
    supporting lemmas, and the properties of the specification, C1 to C10. *)

From Stdlib Require Import ZArith Floats Reals Lra.
From Stdlib Require Uint63.
From stdpp Require Import base list strings sorting.

Open Scope float_scope.

(** ** Floating-point arithmetic

    pandas' aggregation kernels are written once for every floating type
    (Cython's fused type [floating]); [Floating] is the arithmetic they use.
    The engine runs them at binary64. *)

Class Floating (T : Type) := {
  f_add : T → T → T;
  f_sub : T → T → T;
  f_mul : T → T → T;
  f_div : T → T → T;
  f_sqrt : T → T;
  f_eqb : T → T → bool;
  f_of_int : Z → T;
  f_zero : T;
  f_nan : T
}.

Declare Scope floating_scope.
Delimit Scope floating_scope with fl.
Infix "+" := f_add : floating_scope.
Infix "-" := f_sub : floating_scope.
Infix "*" := f_mul : floating_scope.
Infix "/" := f_div : floating_scope.
Infix "==" := f_eqb (at level 70) : floating_scope.

(** Conversion of a machine integer (a count of observations) to a double. *)
Definition float_of_int (z : Z) : float := PrimFloat.of_uint63 (Uint63.of_Z z).

#[global] Instance binary64 : Floating float := {|
  f_add := PrimFloat.add;
  f_sub := PrimFloat.sub;
  f_mul := PrimFloat.mul;
  f_div := PrimFloat.div;
  f_sqrt := PrimFloat.sqrt;
  f_eqb := PrimFloat.eqb;
  f_of_int := float_of_int;
  f_zero := 0;
  f_nan := nan
|}.

(** [val == val]: the kernels' test for "this entry is present" (it fails
    on NaN only). *)
Definition notna {T} `{Floating T} (val : T) : bool := (val == val)%fl.

(** ** The Python runtime *)

Module Py.

(** A [dict] with [str] keys and [float] values, in insertion order. *)
Definition pydict := list (string * float).

Fixpoint dict_get (d : pydict) (k : string) : option float :=
  match d with
  | [] => None
  | (k', v) :: d' => if decide (k = k') then Some v else dict_get d' k
  end.

(** [k in d] *)
Definition dict_contains (d : pydict) (k : string) : bool :=
  match dict_get d k with Some _ => true | None => false end.

(** [d[k] = v]: an existing key keeps its position, a new one goes last. *)
Fixpoint dict_set (d : pydict) (k : string) (v : float) : pydict :=
  match d with
  | [] => [(k, v)]
  | (k', v') :: d' =>
      if decide (k = k') then (k', v) :: d' else (k', v') :: dict_set d' k v
  end.

(** [d.keys()] *)
Definition dict_keys (d : pydict) : list string := d.*1.

(** Exceptions the module's operations can raise. *)
Inductive exn :=
| KeyError (k : string)
| ZeroDivisionError.

Inductive outcome (A : Type) :=
| Return (a : A)
| Raise (e : exn).
Arguments Return {A} a.
Arguments Raise {A} e.

(** The store: dictionary objects by reference, and what was printed.  A
    reference is the position of its object in the store; a program only
    holds references to objects that exist, so the reads below never fall
    outside the store. *)
Definition ref := nat.

Record pystate := PyState {
  heap : list pydict;
  stdout : list string
}.

Definition M (A : Type) : Type := pystate → outcome A * pystate.

Definition ret {A} (a : A) : M A := λ σ, (Return a, σ).

Definition raise {A} (e : exn) : M A := λ σ, (Raise e, σ).

Definition bind {A B} (m : M A) (f : A → M B) : M B :=
  λ σ, match m σ with
       | (Return a, σ') => f a σ'
       | (Raise e, σ') => (Raise e, σ')
       end.

(** [{}] and [dict(items)]: a new object, never aliasing an existing one. *)
Definition new_dict (d : pydict) : M ref :=
  λ σ, (Return (length (heap σ)),
        {| heap := heap σ ++ [d]; stdout := stdout σ |}).

(** [k in d] *)
Definition contains (k : string) (d : ref) : M bool :=
  λ σ, (Return (dict_contains (heap σ !!! d) k), σ).

(** [d[k]] *)
Definition getitem (d : ref) (k : string) : M float :=
  λ σ, match dict_get (heap σ !!! d) k with
       | Some v => (Return v, σ)
       | None => (Raise (KeyError k), σ)
       end.

(** [d[k] = v] *)
Definition setitem (d : ref) (k : string) (v : float) : M unit :=
  λ σ, (Return tt,
        {| heap := <[d := dict_set (heap σ !!! d) k v]> (heap σ);
           stdout := stdout σ |}).

(** [d.keys()], read when the loop over it starts. *)
Definition keys (d : ref) : M (list string) :=
  λ σ, (Return (dict_keys (heap σ !!! d)), σ).

(** [print(line)] *)
Definition print (line : string) : M unit :=
  λ σ, (Return tt, {| heap := heap σ; stdout := stdout σ ++ [line] |}).

(** [min(a, b)] on floats: the first argument unless the second is
    smaller. *)
Definition min (a b : float) : float := if b <? a then b else a.

(** [a / b] on floats raises on a zero divisor. *)
Definition truediv (a b : float) : M float :=
  if b =? 0 then raise ZeroDivisionError else ret (a / b).

(** [for x in xs: body(x)]; a [continue] ends [body]. *)
Fixpoint for_each {A} (xs : list A) (body : A → M unit) : M unit :=
  match xs with
  | [] => ret tt
  | x :: xs' => bind (body x) (λ _, for_each xs' body)
  end.

(** The dictionary a call returns, if it returns. *)
Definition returned_dict (m : M ref) (σ : pystate) : option pydict :=
  match m σ with
  | (Return r, σ') => heap σ' !! r
  | (Raise _, _) => None
  end.

(** What a call printed. *)
Definition printed {A} (m : M A) (σ : pystate) : list string :=
  drop (length (stdout σ)) (stdout (m σ).2).

End Py.

Notation "x <- m ;; k" := (Py.bind m (λ x, k))
  (at level 100, m at next level, right associativity, only parsing).

(** ** pandas *)

Module Pandas.

(** A row of the data frame: the columns ['Sku'] and ['Value'].  A missing
    value is the entry NaN. *)
Record row := Row { Sku : string; Value : float }.

Definition DataFrame := list row.

(** A [Series] indexed by SKU. *)
Definition Series := list (string * float).

(** [df.groupby('Sku')['Value']]: the distinct keys in sorted order, each
    with the values of its rows in row order. *)
Definition group_values (sku : string) (df : DataFrame) : list float :=
  Value <$> filter (λ r, Sku r = sku) df.

Definition group_keys (df : DataFrame) : list string :=
  merge_sort String.le (remove_dups (Sku <$> df)).

Definition groupby_Sku_Value (df : DataFrame) : list (string * list float) :=
  (λ sku, (sku, group_values sku df)) <$> group_keys df.

(** The kernels visit the rows once and keep one state per group; the
    state of a group sees the entries of its rows, in row order, so each
    kernel is given here for one group. *)

(** *** The [group_mean] kernel: compensated (Kahan) summation of the
    entries that are present, divided by their number.

    This is the kernel of pandas 2 ([_libs/groupby.pyx]).  The repository
    pins no version of pandas, and another version may add the entries of
    a group in another order, or choose the order by looking at the whole
    frame, which can change the last bits of a mean.  What is stated of
    [get_mean] below is therefore stated of the dictionary it returns, in
    exact arithmetic, or on examples whose sums are exact in whatever
    order they are taken. *)
Section kernels.
Context {T : Type} `{Floating T}.

Record mean_state := MeanState {
  m_nobs : Z;
  m_sumx : T;
  m_compensation : T
}.

Definition group_mean_step (s : mean_state) (val : T) : mean_state :=
  if notna val then
    let y := (val - m_compensation s)%fl in
    let t := (m_sumx s + y)%fl in
    let c := (t - m_sumx s - y)%fl in
    {| m_nobs := m_nobs s + 1;
       m_sumx := t;
       m_compensation := if notna c then c else f_zero |}
  else s.

Definition group_mean (vals : list T) : T :=
  let s := foldl group_mean_step (MeanState 0 f_zero f_zero) vals in
  if (m_nobs s =? 0)%Z then f_nan
  else (m_sumx s / f_of_int (m_nobs s))%fl.

(** *** The [group_var] kernel: Welford's update over the entries that
    are present; [ddof] is the delta degrees of freedom and [is_std] asks
    for the square root. *)
Record var_state := VarState {
  v_nobs : Z;
  v_mean : T;
  v_out : T
}.

Definition group_var_step (s : var_state) (val : T) : var_state :=
  if notna val then
    let nobs := (v_nobs s + 1)%Z in
    let oldmean := v_mean s in
    let mean := (oldmean + (val - oldmean) / f_of_int nobs)%fl in
    {| v_nobs := nobs;
       v_mean := mean;
       v_out := (v_out s + (val - mean) * (val - oldmean))%fl |}
  else s.

Definition group_var (ddof : Z) (is_std : bool) (vals : list T) : T :=
  let s := foldl group_var_step (VarState 0 f_zero f_zero) vals in
  let ct := v_nobs s in
  if (ct <=? ddof)%Z then f_nan
  else if is_std then f_sqrt (v_out s / f_of_int (ct - ddof))%fl
  else (v_out s / f_of_int (ct - ddof))%fl.

End kernels.
Arguments mean_state T : clear implicits.
Arguments var_state T : clear implicits.

(** [SeriesGroupBy.mean()], [.var()] and [.std()] (both with the default
    [ddof=1]). *)
Definition aggregate (f : list float → float)
    (g : list (string * list float)) : Series :=
  (λ kv, (kv.1, f kv.2)) <$> g.

Definition mean (g : list (string * list float)) : Series :=
  aggregate group_mean g.

Definition var (g : list (string * list float)) : Series :=
  aggregate (group_var 1 false) g.

Definition std (g : list (string * list float)) : Series :=
  aggregate (group_var 1 true) g.

(** [Series.to_dict()]: a new dictionary filled in index order. *)
Definition to_dict_items (s : Series) : Py.pydict :=
  foldl (λ d kv, Py.dict_set d kv.1 kv.2) [] s.

Definition to_dict (s : Series) : Py.M Py.ref :=
  Py.new_dict (to_dict_items s).

End Pandas.

(** ** [app/statistics/stats.py] *)

Module Stats.
Import Pandas.

Definition get_mean (df : DataFrame) : Py.M Py.ref :=
  let mean_series := mean (groupby_Sku_Value df) in
  mean_dict <- to_dict mean_series ;;
  Py.ret mean_dict.

Definition get_variance (df : DataFrame) : Py.M Py.ref :=
  let variance_series := var (groupby_Sku_Value df) in
  variance_dict <- to_dict variance_series ;;
  Py.ret variance_dict.

Definition get_std_dev (df : DataFrame) : Py.M Py.ref :=
  let std_series := std (groupby_Sku_Value df) in
  std_dict <- to_dict std_series ;;
  Py.ret std_dict.

Definition warning (sku : string) : string :=
  "Warning: Standard deviation for " +:+ sku +:+
  " is 0, skipping Sigma calculation".

(** The body of the [for] loop of [get_sigma], for one [sku]. *)
Definition get_sigma_body (LSL USL mean_dict std_dict sigma_dict : Py.ref)
    (sku : string) : Py.M unit :=
  in_lsl <- Py.contains sku LSL ;;
  in_usl <- (if in_lsl then Py.contains sku USL else Py.ret false) ;;
  in_std <- (if in_usl then Py.contains sku std_dict else Py.ret false) ;;
  if in_std then
    mean <- Py.getitem mean_dict sku ;;
    std <- Py.getitem std_dict sku ;;
    if std =? 0 then
      Py.print (warning sku)
    else
      usl <- Py.getitem USL sku ;;
      let sigma_upper := usl - mean in
      lsl <- Py.getitem LSL sku ;;
      let sigma_lower := mean - lsl in
      sigma <- Py.truediv (Py.min sigma_upper sigma_lower) std ;;
      Py.setitem sigma_dict sku sigma
  else Py.ret tt.

Definition get_sigma (df : DataFrame) (LSL USL : Py.ref) : Py.M Py.ref :=
  mean_dict <- get_mean df ;;
  std_dict <- get_std_dev df ;;
  sigma_dict <- Py.new_dict [] ;;
  skus <- Py.keys mean_dict ;;
  _ <- Py.for_each skus
         (get_sigma_body LSL USL mean_dict std_dict sigma_dict) ;;
  Py.ret sigma_dict.

End Stats.

Import Pandas Stats.

(** ** The application around the engine

    [manual_run.py] reads the dataset, gets the limits from the database,
    calls the engine and writes the results back.  What lies outside (the
    spreadsheet, the MySQL connection behind [db_manager], the chart, the
    logger) is an environment: each call that the functions below make to
    it is recorded in a trace, and what the call answers is given by the
    environment, as a function of the trace so far.  What a call to the
    database logs on its own side is not recorded. *)

Module App.

(** Exceptions: [TypeError], [mysql.connector.Error] with its text, the
    exceptions of the engine, and any other exception an outside call
    raises. *)
Inductive exn :=
| TypeError
| MysqlError (msg : string)
| Raised (e : Py.exn)
| OtherError (name : string).

(** How a call ends: it returns, it raises, or it never comes back. *)
Inductive result (A : Type) :=
| Ok (a : A)
| Err (e : exn)
| Diverge.
Arguments Ok {A} a.
Arguments Err {A} e.
Arguments Diverge {A}.

Inductive level := DEBUG | INFO | ERROR.

(** The calls to the outside. *)
Inductive event :=
| ReadExcel (file_name : string)
| CreateTable (db_name table_name : string)
| UpdateTableDefault (db_name table_name : string)
| Select (db_name sql : string)
| UpdateTable (db_name table_name query sku : string) (param : float)
| Visualize
| Log (lvl : level) (msg : string).

Section app.
Context {decimal : Type}.

(** The constants of [core/config.py], [float(d)] on a [Decimal], and the
    answers of the outside: the sheet [pd.read_excel] returns, the rows a
    cursor fetches (a NULL cell is [None]), and how the other calls end. *)
Record environment := Environment {
  DB_NAME : string;
  TABLE_NAME : string;
  EXCEL_FILE : string;
  VISUALIZE : bool;
  float_of_decimal : decimal → float;
  read_excel_result : list event → result DataFrame;
  select_result : list event → result (list (string * option decimal));
  call_result : list event → result unit
}.

Variable env : environment.

Record state := State {
  py : Py.pystate;
  trace : list event
}.

Definition M (A : Type) : Type := state → result A * state.

Definition ret {A} (a : A) : M A := λ s, (Ok a, s).

Definition raise {A} (e : exn) : M A := λ s, (Err e, s).

Definition bind {A B} (m : M A) (f : A → M B) : M B :=
  λ s, match m s with
       | (Ok a, s') => f a s'
       | (Err e, s') => (Err e, s')
       | (Diverge, s') => (Diverge, s')
       end.

(** A computation of the engine, run inside the application. *)
Definition lift {A} (m : Py.M A) : M A :=
  λ s, match m (py s) with
       | (Py.Return a, p) => (Ok a, State p (trace s))
       | (Py.Raise e, p) => (Err (Raised e), State p (trace s))
       end.

(** A call to the outside: it is recorded, then ends as the environment
    says. *)
Definition outside {A} (answer : list event → result A) (e : event) : M A :=
  λ s, let t := trace s ++ [e] in (answer t, State (py s) t).

(** [logger.debug], [logger.info], [logger.error]. *)
Definition log (lvl : level) (msg : string) : M unit :=
  λ s, (Ok tt, State (py s) (trace s ++ [Log lvl msg])).

(** [try: body except Error as e: handler(str(e))]. *)
Definition try_except_Error {A} (body : M A) (handler : string → M A) : M A :=
  λ s, match body s with
       | (Err (MysqlError msg), s') => handler msg s'
       | r => r
       end.

Fixpoint for_each {A} (xs : list A) (body : A → M unit) : M unit :=
  match xs with
  | [] => ret tt
  | x :: xs' => bind (body x) (λ _, for_each xs' body)
  end.

Notation "x <~ m ;; k" := (bind m (λ x, k))
  (at level 100, m at next level, right associativity, only parsing).

(** *** [database/database_object.py] *)

(** [float(cell)]: a NULL cell is [None], on which [float] raises. *)
Definition float_of_cell (cell : option decimal) : M float :=
  match cell with
  | Some d => ret (float_of_decimal env d)
  | None => raise TypeError
  end.

(** [{sku: float(limit) for sku, limit in results}] *)
Definition dict_of_rows (results : list (string * option decimal)) :
    M Py.ref :=
  d <~ lift (Py.new_dict []) ;;
  _ <~ for_each results (λ row,
         limit <~ float_of_cell row.2 ;;
         lift (Py.setitem d row.1 limit)) ;;
  ret d.

(** The connection is checked, the database selected, the query executed
    and its rows fetched on the side of the database ([Select]). *)
Definition get_lsl (db_name table_name : string) : M (option Py.ref) :=
  try_except_Error
    (results <~ outside (select_result env)
                  (Select db_name ("SELECT sku, lsl FROM " +:+ table_name)) ;;
     d <~ dict_of_rows results ;;
     ret (Some d))
    (λ e,
     _ <~ log ERROR ("Error getting LSL: " +:+ e) ;;
     ret None).

Definition get_usl (db_name table_name : string) : M (option Py.ref) :=
  try_except_Error
    (results <~ outside (select_result env)
                  (Select db_name ("SELECT sku, usl FROM " +:+ table_name)) ;;
     d <~ dict_of_rows results ;;
     ret (Some d))
    (λ e,
     _ <~ log ERROR ("Error getting USL: " +:+ e) ;;
     ret None).

(** [create_table], [update_table_default] and [update_table] are calls to
    the database. *)
Definition create_table (db_name table_name : string) : M unit :=
  outside (call_result env) (CreateTable db_name table_name).

Definition update_table_default (db_name table_name : string) : M unit :=
  outside (call_result env) (UpdateTableDefault db_name table_name).

Definition update_table (db_name table_name query sku : string)
    (param : float) : M unit :=
  outside (call_result env) (UpdateTable db_name table_name query sku param).

(** *** [database/update_dbstats.py] *)

Definition newline : string := String (Ascii.ascii_of_nat 10) "".

(** The text of the upsert for one column of [table]. *)
Definition mean_query (table : string) : string :=
  newline +:+ "                INSERT INTO " +:+ table +:+ " (sku, mean) " +:+
  newline +:+ "                VALUES (%s, %s) ON DUPLICATE KEY " +:+
  newline +:+ "                UPDATE mean=VALUES(mean) " +:+
  newline +:+ "                ".

Definition std_dev_query (table : string) : string :=
  newline +:+ "                INSERT INTO " +:+ table +:+
  " (sku, std_dev)  " +:+
  newline +:+ "                VALUES (%s, %s) ON DUPLICATE KEY " +:+
  newline +:+ "                UPDATE std_dev=VALUES(std_dev) " +:+
  newline +:+ "                ".

Definition variance_query (table : string) : string :=
  newline +:+ "                INSERT INTO " +:+ table +:+
  " (sku, variance)  " +:+
  newline +:+ "                VALUES (%s, %s) ON DUPLICATE KEY " +:+
  newline +:+ "                UPDATE variance=VALUES(variance) " +:+
  newline +:+ "                ".

Definition sigma_query (table : string) : string :=
  newline +:+ "                INSERT INTO " +:+ table +:+
  " (sku, sigma_level)  " +:+
  newline +:+ "                VALUES (%s, %s) ON DUPLICATE KEY " +:+
  newline +:+ "                UPDATE sigma_level=VALUES(sigma_level) " +:+
  newline +:+ "                ".

(** [d.items()] *)
Definition items (d : Py.ref) : M (list (string * float)) :=
  λ s, (Ok (Py.heap (py s) !!! d), s).

Definition update_mean (mean_json : Py.ref) (table : string) : M unit :=
  entries <~ items mean_json ;;
  for_each entries (λ entry,
    update_table (DB_NAME env) table (mean_query table) entry.1 entry.2).

Definition update_std_dev (std_dev_json : Py.ref) (table : string) : M unit :=
  entries <~ items std_dev_json ;;
  for_each entries (λ entry,
    update_table (DB_NAME env) table (std_dev_query table) entry.1 entry.2).

Definition update_variance (variance_json : Py.ref) (table : string) :
    M unit :=
  entries <~ items variance_json ;;
  for_each entries (λ entry,
    update_table (DB_NAME env) table (variance_query table) entry.1 entry.2).

Definition update_sigma (sigma_json : Py.ref) (table : string) : M unit :=
  entries <~ items sigma_json ;;
  for_each entries (λ entry,
    update_table (DB_NAME env) (TABLE_NAME env) (sigma_query table)
      entry.1 entry.2).

(** *** [statistics/stats.py], as [do_analysis] calls it

    [get_lsl] and [get_usl] return [None] after an error of the database,
    so [get_sigma] is given here for arguments that are a dictionary or
    [None]: [sku in None] and [None[sku]] raise [TypeError]. *)
Definition contains (k : string) (d : option Py.ref) : M bool :=
  match d with
  | Some r => lift (Py.contains k r)
  | None => raise TypeError
  end.

Definition getitem (d : option Py.ref) (k : string) : M float :=
  match d with
  | Some r => lift (Py.getitem r k)
  | None => raise TypeError
  end.

Definition get_sigma_body (LSL USL : option Py.ref)
    (mean_dict std_dict sigma_dict : Py.ref) (sku : string) : M unit :=
  in_lsl <~ contains sku LSL ;;
  in_usl <~ (if in_lsl then contains sku USL else ret false) ;;
  in_std <~ (if in_usl then lift (Py.contains sku std_dict)
             else ret false) ;;
  if in_std then
    mean <~ lift (Py.getitem mean_dict sku) ;;
    std <~ lift (Py.getitem std_dict sku) ;;
    if std =? 0 then
      lift (Py.print (warning sku))
    else
      usl <~ getitem USL sku ;;
      let sigma_upper := usl - mean in
      lsl <~ getitem LSL sku ;;
      let sigma_lower := mean - lsl in
      sigma <~ lift (Py.truediv (Py.min sigma_upper sigma_lower) std) ;;
      lift (Py.setitem sigma_dict sku sigma)
  else ret tt.

Definition get_sigma (df : DataFrame) (LSL USL : option Py.ref) :
    M Py.ref :=
  mean_dict <~ lift (Stats.get_mean df) ;;
  std_dict <~ lift (Stats.get_std_dev df) ;;
  sigma_dict <~ lift (Py.new_dict []) ;;
  skus <~ lift (Py.keys mean_dict) ;;
  _ <~ for_each skus
         (get_sigma_body LSL USL mean_dict std_dict sigma_dict) ;;
  ret sigma_dict.

(** *** [manual_run.py] *)

(** [visualize] draws the chart: a call to the outside. *)
Definition visualize : M unit := outside (call_result env) Visualize.

Definition do_analysis : M unit :=
  let file_name := EXCEL_FILE env in
  data <~ outside (read_excel_result env) (ReadExcel file_name) ;;
  let df := data in
  _ <~ create_table (DB_NAME env) (TABLE_NAME env) ;;
  _ <~ update_table_default (DB_NAME env) (TABLE_NAME env) ;;
  LSL <~ get_lsl (DB_NAME env) "noodles_data" ;;
  USL <~ get_usl (DB_NAME env) "noodles_data" ;;
  mean_dict <~ lift (Stats.get_mean df) ;;
  std_dev_dict <~ lift (Stats.get_std_dev df) ;;
  variance_dict <~ lift (Stats.get_variance df) ;;
  sigma_dict <~ get_sigma df LSL USL ;;
  _ <~ update_mean mean_dict (TABLE_NAME env) ;;
  _ <~ update_variance variance_dict (TABLE_NAME env) ;;
  _ <~ update_std_dev std_dev_dict (TABLE_NAME env) ;;
  _ <~ update_sigma sigma_dict (TABLE_NAME env) ;;
  _ <~ (if VISUALIZE env then visualize else ret tt) ;;
  log INFO
    ("Analysis complete!, check the .log file for details, " +:+
     "and current working directory for the visualizations").

End app.
Arguments environment decimal : clear implicits.

End App.

Notation "x <~ m ;; k" := (App.bind m (λ x, k))
  (at level 100, m at next level, right associativity, only parsing).

(** * Vocabulary of the statements and of their proofs *)

(** The dictionary one aggregate produces: every group key with the
    aggregate of its group. *)
Definition table (f : list float → float) df : Py.pydict :=
  (λ sku, (sku, f (group_values sku df))) <$> group_keys df.

(** The state after a call that allocated the dictionary [d]. *)
Definition allocated (d : Py.pydict) (σ : Py.pystate) : Py.pystate :=
  Py.PyState (Py.heap σ ++ [d]) (Py.stdout σ).

(** What one iteration decides for a SKU. *)
Inductive verdict :=
| Skip
| Warn
| Emit (sigma : float).

Definition sigma_verdict (lsl usl md sd : Py.pydict) (sku : string) : verdict :=
  match Py.dict_get lsl sku, Py.dict_get usl sku,
        Py.dict_get sd sku, Py.dict_get md sku with
  | Some l, Some u, Some std, Some mean =>
      if std =? 0 then Warn else Emit (Py.min (u - mean) (mean - l) / std)
  | _, _, _, _ => Skip
  end.

Definition sigma_step (lsl usl md sd : Py.pydict)
    (s : Py.pydict * list string) (sku : string) : Py.pydict * list string :=
  match sigma_verdict lsl usl md sd sku with
  | Skip => s
  | Warn => (s.1, s.2 ++ [warning sku])
  | Emit v => (Py.dict_set s.1 sku v, s.2)
  end.

(** The iteration for [sku] prints the warning. *)
Definition warned (lsl usl md sd : Py.pydict) (sku : string) : bool :=
  match sigma_verdict lsl usl md sd sku with Warn => true | _ => false end.

(** The iteration for [sku] stores a sigma. *)
Definition emits (lsl usl md sd : Py.pydict) (sku : string) : bool :=
  match sigma_verdict lsl usl md sd sku with Emit _ => true | _ => false end.

(** The state inside the loop of [get_sigma]: the store [H] of the caller,
    then the dictionaries of the means, of the standard deviations and of
    the sigmas built so far; [s] is the latter and the output. *)
Definition loop_state (H : list Py.pydict) (md sd : Py.pydict)
    (s : Py.pydict * list string) : Py.pystate :=
  Py.PyState (H ++ [md; sd; s.1]) s.2.

(** What [get_sigma] returns and prints, given the contents of the bound
    maps. *)
Definition sigma_table (lsl usl : Py.pydict) (df : DataFrame) : Py.pydict :=
  (foldl (sigma_step lsl usl (table group_mean df) (table (group_var 1 true) df))
     ([], []) (group_keys df)).1.

Definition sigma_warnings (lsl usl : Py.pydict) (df : DataFrame) : list string :=
  warning <$>
    filter (λ sku, warned lsl usl (table group_mean df)
                     (table (group_var 1 true) df) sku)
      (group_keys df).

(** Calling an operation twice in a row, and the property that both calls
    return, with equal dictionaries. *)
Definition twice (call : Py.M Py.ref) : Py.M (Py.ref * Py.ref) :=
  first <- call ;;
  second <- call ;;
  Py.ret (first, second).

Definition same_result_twice (call : Py.M Py.ref) (σ : Py.pystate) : Prop :=
  ∃ first second σ' d,
    twice call σ = (Py.Return (first, second), σ') ∧
    Py.heap σ' !! first = Some d ∧
    Py.heap σ' !! second = Some d.

(** The entry of [sku] in the dictionary a call returns. *)
Definition entry (call : Py.M Py.ref) (σ : Py.pystate) (sku : string) :
    option float :=
  match Py.returned_dict call σ with
  | Some d => Py.dict_get d sku
  | None => None
  end.

(** The entries of a group that are present (not NaN). *)
Definition present {T} `{Floating T} (vals : list T) : list T :=
  filter (λ val, notna val) vals.


Definition squared_deviations {T} `{Floating T} (vals : list T) : T :=
  v_out (foldl group_var_step (VarState 0 f_zero f_zero) vals).

(** Exact arithmetic: the real numbers, where nothing is rounded and no
    entry is missing.  There is no NaN among them; [f_nan] only stands for
    the result on a group with too few entries. *)
#[global] Instance real_arithmetic : Floating R := {|
  f_add := Rplus;
  f_sub := Rminus;
  f_mul := Rmult;
  f_div := Rdiv;
  f_sqrt := sqrt;
  f_eqb := λ x y, if Req_dec_T x y then true else false;
  f_of_int := IZR;
  f_zero := 0%R;
  f_nan := 0%R
|}.



(** The sum of the values, of their squares, and of their squared
    deviations from [c]. *)
Definition total (vals : list R) : R := foldr Rplus 0%R vals.





Definition rows_sigma : DataFrame := [Row "A" 65; Row "A" 67; Row "A" 63].

Definition rows_zero : DataFrame := [Row "A" 65; Row "A" 65].


Definition rows_single : DataFrame :=
  [Row "A" 65; Row "C" 1; Row "A" 67; Row "A" 63].

Definition rows_two : DataFrame :=
  [Row "A" 65; Row "B" 1; Row "A" 65; Row "B" 2; Row "B" 6].



Definition store (lsl usl : Py.pydict) : Py.pystate := Py.PyState [lsl; usl] [].

(** The dictionary that the rows of a limits query give. *)
Definition limits {decimal} (env : App.environment decimal)
    (rows : list (string * option decimal)) : Py.pydict :=
  foldl (λ d row, match row.2 with
                  | Some cell =>
                      Py.dict_set d row.1 (App.float_of_decimal env cell)
                  | None => d
                  end) [] rows.

(** The limit of a SKU in the last row that lists it. *)
Definition listed {decimal} (rows : list (string * option decimal))
    (sku : string) : option decimal :=
  last (filter (λ row, row.1 = sku) rows) ≫= snd.

(** The calls of [update_table] for the entries of a dictionary. *)
Definition writes (db_name table_name query : string) (d : Py.pydict) :
    list App.event :=
  (λ entry, App.UpdateTable db_name table_name query entry.1 entry.2) <$> d.

(** The queries of [get_lsl] and [get_usl]. *)
Definition select_lsl (db_name table_name : string) : App.event :=
  App.Select db_name ("SELECT sku, lsl FROM " +:+ table_name).

Definition select_usl (db_name table_name : string) : App.event :=
  App.Select db_name ("SELECT sku, usl FROM " +:+ table_name).

(** What [do_analysis] does before it asks for the limits. *)
Definition opening {decimal} (env : App.environment decimal) :
    list App.event :=
  [App.ReadExcel (App.EXCEL_FILE env);
   App.CreateTable (App.DB_NAME env) (App.TABLE_NAME env);
   App.UpdateTableDefault (App.DB_NAME env) (App.TABLE_NAME env)].

(** The calls that change the database or draw the chart. *)
Definition is_write (e : App.event) : bool :=
  match e with
  | App.UpdateTable _ _ _ _ _ | App.Visualize => true
  | _ => false
  end.

(** The two limits, to speak of [get_lsl] and [get_usl] at once. *)
Inductive limit := Lower | Upper.

Definition get_limit {decimal} (which : limit) :
    App.environment decimal → string → string → App.M (option Py.ref) :=
  match which with
  | Lower => App.get_lsl
  | Upper => App.get_usl
  end.

Definition select_limit (which : limit) : string → string → App.event :=
  match which with
  | Lower => select_lsl
  | Upper => select_usl
  end.

(** An environment for the examples: limits are stored in hundredths, the
    sheet and the answers of the queries are given, every other call
    returns. *)
Definition hundredths (z : Z) : float := float_of_int z / 100.

Definition example_env (sheet : App.result DataFrame)
    (answers : list App.event → App.result (list (string * option Z))) :
    App.environment Z :=
  App.Environment "quality" "noodles_data" "data.xlsx" true hundredths
    (λ _, sheet) answers (λ _, App.Ok tt).

Definition start : App.state := App.State (Py.PyState [] []) [].

(** How a call that gives a dictionary ends when it prints nothing and
    calls nothing outside: with a dictionary, or with an exception. *)
Definition ends_with (m : App.M Py.ref) (s : App.state)
    (r : App.result Py.pydict) : Prop :=
  ∃ s', App.trace s' = App.trace s ∧
        Py.stdout (App.py s') = Py.stdout (App.py s) ∧
        match r with
        | App.Ok d => ∃ ref, m s = (App.Ok ref, s') ∧
                             Py.heap (App.py s') !! ref = Some d
        | App.Err e => m s = (App.Err e, s')
        | App.Diverge => m s = (App.Diverge, s')
        end.

(** The text [do_analysis] logs when it is done. *)
Definition analysis_complete : App.event :=
  App.Log App.INFO
    ("Analysis complete!, check the .log file for details, " +:+
     "and current working directory for the visualizations").

(** What [do_analysis] writes whatever the limits: the entries of the
    dictionary of the means, then of the variances, then of the standard
    deviations. *)
Definition statistics {decimal} (env : App.environment decimal)
    (mean_dict variance_dict std_dict : Py.pydict) : list App.event :=
  writes (App.DB_NAME env) (App.TABLE_NAME env)
    (App.mean_query (App.TABLE_NAME env)) mean_dict ++
  writes (App.DB_NAME env) (App.TABLE_NAME env)
    (App.variance_query (App.TABLE_NAME env)) variance_dict ++
  writes (App.DB_NAME env) (App.TABLE_NAME env)
    (App.std_dev_query (App.TABLE_NAME env)) std_dict.

(** What it writes in all: the entries of the dictionary of the sigma
    levels after the statistics. *)
Definition results {decimal} (env : App.environment decimal)
    (mean_dict variance_dict std_dict sigma_dict : Py.pydict) :
    list App.event :=
  statistics env mean_dict variance_dict std_dict ++
  writes (App.DB_NAME env) (App.TABLE_NAME env)
    (App.sigma_query (App.TABLE_NAME env)) sigma_dict.

(** How [do_analysis] ends after the drawing of the chart, if asked for. *)
Definition closing {decimal} (env : App.environment decimal) :
    list App.event :=
  (if App.VISUALIZE env then [App.Visualize] else []) ++ [analysis_complete].

(** Answers of the database for the examples: one for the query of the
    lower limits, one for the query of the upper limits. *)
Definition answers (lower upper : App.result (list (string * option Z))) :
    list App.event → App.result (list (string * option Z)) :=
  λ t, match last t with
       | Some (App.Select _ sql) =>
           if decide (sql = "SELECT sku, lsl FROM noodles_data") then lower
           else upper
       | _ => upper
       end.

Definition lower_rows : list (string * option Z) :=
  [("A", Some 6200); ("B", Some 100)]%Z.

Definition upper_rows : list (string * option Z) :=
  [("A", Some 6800); ("B", Some 500)]%Z.

(** * Supporting lemmas *)

(** One step of symbolic execution: reduce the binds and the projections of
    the state that the last rewrite exposed. *)
Ltac py_step := cbv beta iota; cbn [fst snd Py.heap Py.stdout].

(** ** Facts about dictionaries *)

Section dict_facts.
Implicit Types (d : Py.pydict) (k : string) (v : float).

Lemma dict_get_set d k v k' :
  Py.dict_get (Py.dict_set d k v) k' =
  if decide (k' = k) then Some v else Py.dict_get d k'.
Proof.
  induction d as [|[k0 v0] d IH]; simpl.
  - repeat case_decide; congruence.
  - repeat (case_decide; simpl); subst; try congruence.
Qed.

Lemma dict_get_keys d k :
  is_Some (Py.dict_get d k) ↔ k ∈ Py.dict_keys d.
Proof.
  unfold Py.dict_keys. induction d as [|[k0 v0] d IH]; simpl.
  - split; [by intros [? ?] | by intros ?%elem_of_nil].
  - rewrite elem_of_cons. case_decide; subst.
    + split; eauto.
    + rewrite IH. split; [by right | by intros [?|?]].
Qed.

Lemma dict_set_fresh d k v :
  k ∉ Py.dict_keys d → Py.dict_set d k v = d ++ [(k, v)].
Proof.
  unfold Py.dict_keys. induction d as [|[k0 v0] d IH]; simpl; [done|].
  rewrite not_elem_of_cons. intros [? ?]. case_decide; [done|].
  by rewrite IH.
Qed.

(** A table [k ↦ f k] over distinct keys is its own dictionary. *)
Lemma dict_get_table (f : string → float) (ks : list string) k :
  Py.dict_get ((λ k, (k, f k)) <$> ks) k =
  if decide (k ∈ ks) then Some (f k) else None.
Proof.
  induction ks as [|k0 ks IH].
  - destruct (decide (k ∈ [])) as [H|H]; [by apply elem_of_nil in H | done].
  - rewrite fmap_cons. cbn [Py.dict_get]. rewrite IH.
    destruct (decide (k = k0)) as [->|Hne].
    + rewrite decide_True; [done | by left].
    + destruct (decide (k ∈ ks)) as [Hin|Hnin].
      * rewrite decide_True; [done | by right].
      * rewrite decide_False; [done|]. by intros [?|?]%elem_of_cons.
Qed.

Lemma to_dict_items_app (acc : Py.pydict) (s : Series) :
  NoDup (acc.*1 ++ s.*1) →
  foldl (λ d kv, Py.dict_set d kv.1 kv.2) acc s = acc ++ s.
Proof.
  revert acc. induction s as [|[k v] s IH]; intros acc Hnd; simpl.
  - by rewrite app_nil_r.
  - rewrite dict_set_fresh.
    + rewrite IH; [by rewrite <- app_assoc|].
      rewrite fmap_app. simpl. by rewrite <- app_assoc.
    + simpl in Hnd. apply NoDup_app in Hnd as (_ & Hd & _).
      intros Hin. apply (Hd k Hin). by left.
Qed.

Lemma to_dict_items_NoDup (s : Series) :
  NoDup s.*1 → to_dict_items s = s.
Proof. intros H. unfold to_dict_items. by rewrite to_dict_items_app. Qed.

End dict_facts.

(** ** Facts about the grouping *)

Section grouping_facts.
Implicit Types (df : DataFrame) (sku : string).

Lemma group_keys_NoDup df : NoDup (group_keys df).
Proof.
  unfold group_keys. rewrite merge_sort_Permutation. apply NoDup_remove_dups.
Qed.

Lemma elem_of_group_keys df sku :
  sku ∈ group_keys df ↔ ∃ r, r ∈ df ∧ Sku r = sku.
Proof.
  unfold group_keys. rewrite merge_sort_Permutation, elem_of_remove_dups.
  rewrite list_elem_of_fmap. split.
  - intros (r & -> & Hr). eauto.
  - intros (r & Hr & <-). eauto.
Qed.

Lemma group_values_nil df sku :
  group_values sku df = [] ↔ sku ∉ group_keys df.
Proof.
  rewrite elem_of_group_keys. unfold group_values. split.
  - intros Hnil (r & Hr & Hsku).
    apply fmap_nil_inv in Hnil.
    assert (r ∈ filter (λ r, Sku r = sku) df) as Hin
      by (apply list_elem_of_filter; done).
    rewrite Hnil in Hin. by apply elem_of_nil in Hin.
  - intros Hno. destruct (filter _ df) as [|r l] eqn:E; [done|].
    exfalso. apply Hno. exists r.
    assert (r ∈ filter (λ r, Sku r = sku) df) as Hin
      by (rewrite E; left).
    apply list_elem_of_filter in Hin as [? ?]. done.
Qed.

Lemma table_keys f df : Py.dict_keys (table f df) = group_keys df.
Proof.
  unfold Py.dict_keys, table. rewrite <- list_fmap_compose.
  apply list_fmap_id.
Qed.

Lemma dict_get_table_group f df sku :
  Py.dict_get (table f df) sku =
  if decide (sku ∈ group_keys df) then Some (f (group_values sku df))
  else None.
Proof. unfold table. apply (dict_get_table (λ k, f (group_values k df))). Qed.

Lemma to_dict_items_aggregate f df :
  to_dict_items (aggregate f (groupby_Sku_Value df)) = table f df.
Proof.
  assert (aggregate f (groupby_Sku_Value df) = table f df) as ->.
  { unfold aggregate, groupby_Sku_Value, table.
    by rewrite <- list_fmap_compose. }
  apply to_dict_items_NoDup. fold (Py.dict_keys (table f df)).
  rewrite table_keys. apply group_keys_NoDup.
Qed.

End grouping_facts.

(** ** Running the three aggregates *)

Section aggregate_runs.
Implicit Types (df : DataFrame) (σ : Py.pystate).

Lemma get_mean_run df σ :
  get_mean df σ =
  (Py.Return (length (Py.heap σ)), allocated (table group_mean df) σ).
Proof.
  unfold get_mean, to_dict, mean, Py.bind, Py.new_dict, Py.ret, allocated.
  by rewrite to_dict_items_aggregate.
Qed.

Lemma get_variance_run df σ :
  get_variance df σ =
  (Py.Return (length (Py.heap σ)), allocated (table (group_var 1 false) df) σ).
Proof.
  unfold get_variance, to_dict, var, Py.bind, Py.new_dict, Py.ret, allocated.
  by rewrite to_dict_items_aggregate.
Qed.

Lemma get_std_dev_run df σ :
  get_std_dev df σ =
  (Py.Return (length (Py.heap σ)), allocated (table (group_var 1 true) df) σ).
Proof.
  unfold get_std_dev, to_dict, std, Py.bind, Py.new_dict, Py.ret, allocated.
  by rewrite to_dict_items_aggregate.
Qed.

Lemma returned_allocated (m : Py.M Py.ref) σ d :
  m σ = (Py.Return (length (Py.heap σ)), allocated d σ) →
  Py.returned_dict m σ = Some d.
Proof.
  intros H. unfold Py.returned_dict. rewrite H. simpl.
  by rewrite lookup_app_r, Nat.sub_diag by lia.
Qed.

Lemma get_mean_returns df σ :
  Py.returned_dict (get_mean df) σ = Some (table group_mean df).
Proof. apply returned_allocated, get_mean_run. Qed.

Lemma get_variance_returns df σ :
  Py.returned_dict (get_variance df) σ = Some (table (group_var 1 false) df).
Proof. apply returned_allocated, get_variance_run. Qed.

Lemma get_std_dev_returns df σ :
  Py.returned_dict (get_std_dev df) σ = Some (table (group_var 1 true) df).
Proof. apply returned_allocated, get_std_dev_run. Qed.

End aggregate_runs.

(** ** The loop of [get_sigma] *)

Section sigma_loop.
Variables (H : list Py.pydict) (lsl usl md sd : Py.pydict).
Variables (LSL USL : Py.ref).
Hypothesis HLSL : H !! LSL = Some lsl.
Hypothesis HUSL : H !! USL = Some usl.

Lemma loop_heap_old (acc : Py.pydict) (r : Py.ref) (d : Py.pydict) :
  H !! r = Some d → (H ++ [md; sd; acc]) !!! r = d.
Proof.
  intros Hr. apply list_lookup_total_correct. by apply lookup_app_l_Some.
Qed.

Lemma loop_heap_mean acc : (H ++ [md; sd; acc]) !!! length H = md.
Proof.
  apply list_lookup_total_correct.
  by rewrite lookup_app_r, Nat.sub_diag by lia.
Qed.

Lemma loop_heap_std acc : (H ++ [md; sd; acc]) !!! S (length H) = sd.
Proof.
  apply list_lookup_total_correct.
  rewrite lookup_app_r by lia.
  by replace (S (length H) - length H)%nat with 1%nat by lia.
Qed.

Lemma loop_heap_sigma acc : (H ++ [md; sd; acc]) !!! S (S (length H)) = acc.
Proof.
  apply list_lookup_total_correct.
  rewrite lookup_app_r by lia.
  by replace (S (S (length H)) - length H)%nat with 2%nat by lia.
Qed.

Lemma loop_heap_store acc acc' :
  <[S (S (length H)) := acc']> (H ++ [md; sd; acc]) = H ++ [md; sd; acc'].
Proof.
  rewrite insert_app_r_alt by lia.
  by replace (S (S (length H)) - length H)%nat with 2%nat by lia.
Qed.

Lemma get_sigma_body_run s sku :
  is_Some (Py.dict_get md sku) →
  get_sigma_body LSL USL (length H) (S (length H)) (S (S (length H))) sku
    (loop_state H md sd s) =
  (Py.Return tt, loop_state H md sd (sigma_step lsl usl md sd s sku)).
Proof.
  intros [mean Hmean]. destruct s as [acc out].
  unfold get_sigma_body, sigma_step, sigma_verdict, loop_state.
  unfold Py.bind, Py.contains, Py.getitem, Py.ret, Py.dict_contains.
  cbn [fst snd Py.heap Py.stdout].
  rewrite (loop_heap_old acc LSL lsl HLSL).
  destruct (Py.dict_get lsl sku) as [l|] eqn:Hl; py_step; [|done].
  rewrite (loop_heap_old acc USL usl HUSL).
  destruct (Py.dict_get usl sku) as [u|] eqn:Hu; py_step; [|done].
  rewrite loop_heap_std.
  destruct (Py.dict_get sd sku) as [std|] eqn:Hstd; py_step; [|done].
  rewrite loop_heap_mean, Hmean. py_step.
  rewrite loop_heap_std, Hstd. py_step.
  destruct (std =? 0) eqn:Hz; py_step; [done|].
  rewrite (loop_heap_old acc USL usl HUSL), Hu. py_step.
  rewrite (loop_heap_old acc LSL lsl HLSL), Hl. py_step.
  unfold Py.truediv. rewrite Hz. unfold Py.ret, Py.setitem. py_step.
  by rewrite loop_heap_sigma, loop_heap_store.
Qed.

Lemma get_sigma_loop_run ks s :
  (∀ sku, sku ∈ ks → is_Some (Py.dict_get md sku)) →
  Py.for_each ks
    (get_sigma_body LSL USL (length H) (S (length H)) (S (S (length H))))
    (loop_state H md sd s) =
  (Py.Return tt, loop_state H md sd (foldl (sigma_step lsl usl md sd) s ks)).
Proof.
  revert s. induction ks as [|sku ks IH]; intros s Hks; [done|].
  cbn [Py.for_each foldl]. unfold Py.bind at 1.
  rewrite get_sigma_body_run by (apply Hks; left).
  apply IH. intros sku' Hin. apply Hks. by right.
Qed.

End sigma_loop.

(** ** What the loop computes *)

Section sigma_fold.
Variables (lsl usl md sd : Py.pydict).

Abbreviation step := (sigma_step lsl usl md sd).
Abbreviation verdict_of := (sigma_verdict lsl usl md sd).

Lemma sigma_fold_split (s : Py.pydict * list string) (ks : list string) :
  foldl step s ks =
  ((foldl step (s.1, []) ks).1,
   s.2 ++ (warning <$> filter (λ sku, warned lsl usl md sd sku) ks)).
Proof.
  revert s. induction ks as [|sku ks IH]; intros [acc out].
  - cbn. by rewrite app_nil_r.
  - cbn [foldl fst snd]. rewrite IH.
    rewrite (IH (step (acc, []) sku)).
    rewrite filter_cons. unfold sigma_step, warned.
    destruct (verdict_of sku); cbn [fst snd].
    + by rewrite decide_False by (by intros ?).
    + rewrite decide_True by done.
      by rewrite fmap_cons, <- app_assoc.
    + by rewrite decide_False by (by intros ?).
Qed.

Lemma sigma_fold_get (acc : Py.pydict) (ks : list string) (sku : string) :
  Py.dict_get (foldl step (acc, []) ks).1 sku =
  match verdict_of sku with
  | Emit v => if decide (sku ∈ ks) then Some v else Py.dict_get acc sku
  | _ => Py.dict_get acc sku
  end.
Proof.
  revert acc. induction ks as [|k ks IH]; intros acc.
  - cbn [foldl fst]. destruct (verdict_of sku); try done.
  - cbn [foldl]. rewrite sigma_fold_split. cbn [fst]. rewrite IH.
    unfold sigma_step.
    destruct (verdict_of sku) as [| |v] eqn:Hv.
    + destruct (verdict_of k) eqn:Hk; cbn [fst]; try done.
      rewrite dict_get_set. case_decide; [congruence | done].
    + destruct (verdict_of k) eqn:Hk; cbn [fst]; try done.
      rewrite dict_get_set. case_decide; [congruence | done].
    + destruct (decide (sku ∈ ks)) as [Hin|Hnin].
      { rewrite decide_True; [done | by right]. }
      destruct (decide (sku = k)) as [->|Hne].
      * rewrite decide_True by (by left). rewrite Hv. cbn [fst].
        rewrite dict_get_set. by rewrite decide_True.
      * rewrite decide_False by (by intros [?|?]%elem_of_cons).
        destruct (verdict_of k); cbn [fst]; try done.
        rewrite dict_get_set. by rewrite decide_False.
Qed.

End sigma_fold.

(** ** Running [get_sigma] *)

Section sigma_run.
Variables (df : DataFrame) (LSL USL : Py.ref) (lsl usl : Py.pydict).
Variable (σ : Py.pystate).
Hypothesis HLSL : Py.heap σ !! LSL = Some lsl.
Hypothesis HUSL : Py.heap σ !! USL = Some usl.

Lemma get_sigma_run :
  get_sigma df LSL USL σ =
  (Py.Return (S (S (length (Py.heap σ)))),
   Py.PyState
     (Py.heap σ ++ [table group_mean df; table (group_var 1 true) df;
                    sigma_table lsl usl df])
     (Py.stdout σ ++ sigma_warnings lsl usl df)).
Proof.
  unfold get_sigma. unfold Py.bind at 1. rewrite get_mean_run.
  unfold Py.bind at 1. rewrite get_std_dev_run.
  unfold Py.bind at 1, Py.new_dict, allocated. py_step.
  unfold Py.bind at 1, Py.keys. py_step.
  rewrite !length_app. cbn [length].
  replace (length (Py.heap σ) + 1 + 1)%nat with (S (S (length (Py.heap σ))))
    by lia.
  replace (length (Py.heap σ) + 1)%nat with (S (length (Py.heap σ))) by lia.
  rewrite <- !app_assoc. cbn [app].
  rewrite loop_heap_mean, table_keys.
  unfold Py.bind.
  pose proof (get_sigma_loop_run (Py.heap σ) lsl usl (table group_mean df)
    (table (group_var 1 true) df) LSL USL HLSL HUSL (group_keys df)
    ([], Py.stdout σ)) as Hloop.
  unfold loop_state in Hloop. cbn [fst snd] in Hloop.
  rewrite Hloop.
  - unfold Py.ret. rewrite sigma_fold_split. done.
  - intros sku Hin. apply dict_get_keys. by rewrite table_keys.
Qed.

Lemma get_sigma_returns :
  Py.returned_dict (get_sigma df LSL USL) σ = Some (sigma_table lsl usl df).
Proof.
  unfold Py.returned_dict. rewrite get_sigma_run. cbn [Py.heap].
  rewrite lookup_app_r by lia.
  by replace (S (S (length (Py.heap σ))) - length (Py.heap σ))%nat
    with 2%nat by lia.
Qed.

Lemma get_sigma_printed :
  Py.printed (get_sigma df LSL USL) σ = sigma_warnings lsl usl df.
Proof.
  unfold Py.printed. rewrite get_sigma_run. cbn [snd Py.stdout].
  by rewrite drop_app_length.
Qed.

End sigma_run.

Lemma sigma_table_get lsl usl df sku :
  Py.dict_get (sigma_table lsl usl df) sku =
  match sigma_verdict lsl usl (table group_mean df)
          (table (group_var 1 true) df) sku with
  | Emit v => Some v
  | _ => None
  end.
Proof.
  unfold sigma_table. rewrite sigma_fold_get.
  destruct (sigma_verdict _ _ _ _ sku) as [| |v] eqn:Hv; try done.
  rewrite decide_True; [done|].
  rewrite <- (table_keys group_mean). apply dict_get_keys.
  unfold sigma_verdict in Hv.
  destruct (Py.dict_get lsl sku), (Py.dict_get usl sku),
    (Py.dict_get (table (group_var 1 true) df) sku),
    (Py.dict_get (table group_mean df) sku); done.
Qed.

(** ** The warning names its SKU *)

Section warning_facts.

Lemma string_length_app (s t : string) :
  String.length (s +:+ t) = (String.length s + String.length t)%nat.
Proof. induction s as [|a s IH]; simpl; [done | by rewrite IH]. Qed.

Lemma string_app_inv_tail (s1 s2 t : string) :
  s1 +:+ t = s2 +:+ t → s1 = s2.
Proof.
  revert s2. induction s1 as [|a s1 IH]; intros [|b s2] Heq.
  - done.
  - apply (f_equal String.length) in Heq.
    rewrite !string_length_app in Heq. simpl in Heq. lia.
  - apply (f_equal String.length) in Heq.
    rewrite !string_length_app in Heq. simpl in Heq. lia.
  - cbn [String.append] in Heq. injection Heq as -> Heq.
    by rewrite (IH _ Heq).
Qed.

Lemma warning_inj sku sku' : warning sku = warning sku' → sku = sku'.
Proof.
  unfold warning. intros Heq.
  apply (inj (String.app _)) in Heq.
  by apply string_app_inv_tail in Heq.
Qed.

Lemma elem_of_sigma_warnings lsl usl df sku :
  warning sku ∈ sigma_warnings lsl usl df ↔
  sigma_verdict lsl usl (table group_mean df)
    (table (group_var 1 true) df) sku = Warn.
Proof.
  unfold sigma_warnings. rewrite list_elem_of_fmap. split.
  - intros (sku' & ->%warning_inj & Hin).
    apply list_elem_of_filter in Hin as [Hw _]. unfold warned in Hw.
    by destruct (sigma_verdict _ _ _ _ sku').
  - intros Hv. exists sku. split; [done|].
    apply list_elem_of_filter. split.
    + unfold warned. by rewrite Hv.
    + rewrite <- (table_keys group_mean). apply dict_get_keys.
      unfold sigma_verdict in Hv.
      destruct (Py.dict_get lsl sku), (Py.dict_get usl sku),
        (Py.dict_get (table (group_var 1 true) df) sku),
        (Py.dict_get (table group_mean df) sku); done.
Qed.

End warning_facts.

(** ** Binary64 facts *)

Section float_facts.

(** Division by NaN is NaN, whatever the dividend. *)
Lemma float_div_nan (a : float) : a / nan = nan.
Proof.
  apply Prim2SF_inj. rewrite FloatAxioms.div_spec.
  change (Prim2SF nan) with S754_nan.
  unfold SF64div, SFdiv. by destruct (Prim2SF a).
Qed.

Lemma float_sub_nan_r (a : float) : a - nan = nan.
Proof.
  apply Prim2SF_inj. rewrite FloatAxioms.sub_spec.
  change (Prim2SF nan) with S754_nan.
  unfold SF64sub, SFsub. by destruct (Prim2SF a).
Qed.

Lemma float_sub_nan_l (a : float) : nan - a = nan.
Proof.
  apply Prim2SF_inj. rewrite FloatAxioms.sub_spec.
  by change (Prim2SF nan) with S754_nan.
Qed.

Lemma float_div_nan_l (a : float) : nan / a = nan.
Proof.
  apply Prim2SF_inj. rewrite FloatAxioms.div_spec.
  by change (Prim2SF nan) with S754_nan.
Qed.

Lemma float_ltb_nan_l (a : float) : (nan <? a) = false.
Proof.
  rewrite FloatAxioms.ltb_spec. by change (Prim2SF nan) with S754_nan.
Qed.

Lemma float_ltb_nan_r (a : float) : (a <? nan) = false.
Proof.
  rewrite FloatAxioms.ltb_spec. change (Prim2SF nan) with S754_nan.
  unfold SFltb, SFcompare. by destruct (Prim2SF a) as [| | |[]].
Qed.


End float_facts.

(** ** The kernels see the entries that are present *)

Section kernel_facts.
Context {T : Type} `{Floating T}.
Implicit Types (vals : list T).

Lemma present_cons_notna val vals :
  notna val = true → present (val :: vals) = val :: present vals.
Proof.
  intros Hv. unfold present. rewrite filter_cons.
  rewrite decide_True; [done | by rewrite Hv].
Qed.

Lemma present_cons_na val vals :
  notna val = false → present (val :: vals) = present vals.
Proof.
  intros Hv. unfold present. rewrite filter_cons.
  rewrite decide_False; [done|]. rewrite Hv. by intros ?.
Qed.


Lemma group_var_fold_present (s : var_state T) vals :
  foldl group_var_step s vals = foldl group_var_step s (present vals).
Proof.
  revert s. induction vals as [|val vals IH]; intros s; [done|].
  destruct (notna val) eqn:Hv.
  - rewrite present_cons_notna by done. cbn [foldl]. apply IH.
  - rewrite present_cons_na by done. cbn [foldl].
    unfold group_var_step at 2. rewrite Hv. apply IH.
Qed.


Lemma group_var_nobs (s : var_state T) vals :
  v_nobs (foldl group_var_step s vals) =
  (v_nobs s + Z.of_nat (length (present vals)))%Z.
Proof.
  revert s. induction vals as [|val vals IH]; intros s.
  - cbn. lia.
  - cbn [foldl]. rewrite IH. unfold group_var_step.
    destruct (notna val) eqn:Hv.
    + rewrite present_cons_notna by done. cbn [v_nobs length]. lia.
    + by rewrite present_cons_na by done.
Qed.


(** [group_var] with [ddof = 1]: NaN when at most one entry is present,
    else the squared deviations of the present entries over their number
    less one. *)
Lemma group_var_present vals :
  group_var 1 false vals =
  if (Z.of_nat (length (present vals)) <=? 1)%Z then f_nan
  else (squared_deviations (present vals) /
        f_of_int (Z.of_nat (length (present vals)) - 1))%fl.
Proof.
  unfold group_var, squared_deviations.
  rewrite group_var_nobs, <- group_var_fold_present.
  cbn [v_nobs]. by rewrite Z.add_0_l.
Qed.

End kernel_facts.

(** At binary64 the standard deviation is the square root of the variance,
    also when both are NaN. *)
Lemma group_std_sqrt_var (vals : list float) :
  group_var 1 true vals = PrimFloat.sqrt (group_var 1 false vals).
Proof. unfold group_var. cbn zeta. by destruct (_ <=? 1)%Z. Qed.

(** A group with at most one entry present has no sample variance: the
    kernel counts no more than [ddof = 1] entries. *)
Lemma group_var_few (is_std : bool) (vals : list float) :
  length (present vals) ≤ 1 → group_var 1 is_std vals = nan.
Proof.
  intros Hfew.
  assert (group_var 1 false vals = nan) as Hvar.
  { rewrite (group_var_present (T:=float)).
    by rewrite (proj2 (Z.leb_le _ _)) by lia. }
  destruct is_std; [|done]. by rewrite group_std_sqrt_var, Hvar.
Qed.

Lemma present_length {T} `{Floating T} (vals : list T) :
  length (present vals) ≤ length vals.
Proof. apply length_filter. Qed.

(** ** The kernels in exact arithmetic

    Over the real numbers nothing is rounded and no entry is missing: the
    compensation of [group_mean] stays 0 and Welford's update of [group_var]
    keeps the sum of the squared deviations from the running mean. *)

Section exact_kernels.
Open Scope R_scope.

Lemma notna_exact (x : R) : notna x = true.
Proof. unfold notna. cbn. by destruct (Req_dec_T x x). Qed.




Lemma group_mean_fold_exact (s : mean_state R) (vals : list R) :
  m_compensation s = 0 →
  foldl group_mean_step s vals =
  MeanState (m_nobs s + Z.of_nat (length vals))
    (m_sumx s + total vals) 0.
Proof.
  revert s. induction vals as [|x l IH]; intros [n sx c] Hc;
    cbn [m_compensation m_nobs m_sumx] in *; subst c.
  - cbn. f_equal; [lia | lra].
  - cbn [foldl]. unfold group_mean_step at 2. rewrite notna_exact.
    cbn [m_compensation m_nobs m_sumx]. rewrite notna_exact.
    rewrite IH; cbn [m_compensation m_nobs m_sumx f_sub f_add real_arithmetic].
    + f_equal; [cbn [length]; lia|].
      change (total (x :: l)) with (x + total l). lra.
    + lra.
Qed.

(** Over the reals [group_mean] is the arithmetic mean. *)
Lemma group_mean_exact (vals : list R) :
  vals ≠ [] →
  group_mean vals = total vals / INR (length vals).
Proof.
  intros Hne. unfold group_mean. rewrite group_mean_fold_exact by done.
  cbn [m_nobs m_sumx f_zero f_div f_of_int real_arithmetic].
  destruct vals as [|x l]; [done|].
  rewrite (proj2 (Z.eqb_neq _ _)) by (cbn [length]; lia).
  rewrite Z.add_0_l, <- INR_IZR_INZ. f_equal. lra.
Qed.



End exact_kernels.

(** ** The kernels in exact arithmetic with missing values

    The entries that are missing are left out; on the others the kernels do
    what they do over the real numbers, and no division is by zero. *)

Section missing_values.
Open Scope R_scope.









End missing_values.

(** ** Calling twice *)

Lemma same_result_twice_allocated (call : Py.M Py.ref) (d : Py.pydict) σ :
  (∀ σ, call σ = (Py.Return (length (Py.heap σ)), allocated d σ)) →
  same_result_twice call σ.
Proof.
  intros Hcall.
  exists (length (Py.heap σ)), (S (length (Py.heap σ))),
    (allocated d (allocated d σ)), d.
  unfold twice, Py.bind. rewrite Hcall, Hcall. unfold Py.ret, allocated.
  cbn [Py.heap Py.stdout]. rewrite length_app. cbn [length].
  replace (length (Py.heap σ) + 1)%nat with (S (length (Py.heap σ))) by lia.
  split; [done|]. rewrite <- app_assoc. cbn [app].
  split.
  - by rewrite lookup_app_r, Nat.sub_diag by lia.
  - rewrite lookup_app_r by lia.
    by replace (S (length (Py.heap σ)) - length (Py.heap σ))%nat
      with 1%nat by lia.
Qed.

Lemma same_result_twice_get_sigma df LSL USL lsl usl σ :
  Py.heap σ !! LSL = Some lsl →
  Py.heap σ !! USL = Some usl →
  same_result_twice (get_sigma df LSL USL) σ.
Proof.
  intros HL HU.
  set (new := [table group_mean df; table (group_var 1 true) df;
               sigma_table lsl usl df]).
  exists (S (S (length (Py.heap σ)))), (S (S (length (Py.heap σ ++ new)))),
    (Py.PyState ((Py.heap σ ++ new) ++ new)
       ((Py.stdout σ ++ sigma_warnings lsl usl df) ++
        sigma_warnings lsl usl df)),
    (sigma_table lsl usl df).
  unfold twice, Py.bind.
  rewrite (get_sigma_run df LSL USL lsl usl σ HL HU). fold new.
  rewrite (get_sigma_run df LSL USL lsl usl
             (Py.PyState (Py.heap σ ++ new) _)); cbn [Py.heap Py.stdout];
    [|by apply lookup_app_l_Some..].
  split; [done|]. split.
  - apply lookup_app_l_Some. rewrite lookup_app_r by lia.
    by replace (S (S (length (Py.heap σ))) - length (Py.heap σ))%nat
      with 2%nat by lia.
  - rewrite lookup_app_r by lia.
    by replace (S (S (length (Py.heap σ ++ new))) -
                length (Py.heap σ ++ new))%nat with 2%nat by lia.
Qed.

(** ** [get_sigma] on the empty dataset *)

Lemma get_sigma_empty_run (LSL USL : Py.ref) (σ : Py.pystate) :
  get_sigma [] LSL USL σ =
  (Py.Return (S (S (length (Py.heap σ)))),
   Py.PyState (Py.heap σ ++ [[]; []; []]) (Py.stdout σ)).
Proof.
  unfold get_sigma. unfold Py.bind at 1. rewrite get_mean_run.
  unfold Py.bind at 1. rewrite get_std_dev_run.
  unfold Py.bind at 1, Py.new_dict, allocated. py_step.
  unfold Py.bind at 1, Py.keys. py_step.
  rewrite !length_app. cbn [length].
  replace (length (Py.heap σ) + 1 + 1)%nat with (S (S (length (Py.heap σ))))
    by lia.
  rewrite <- !app_assoc. cbn [app].
  rewrite loop_heap_mean. done.
Qed.

(** ** The keys of the results, in order *)

Section key_order.

Lemma sigma_fold_keys lsl usl md sd (ks : list string) (acc : Py.pydict) :
  NoDup ks →
  (∀ k, k ∈ ks → k ∉ Py.dict_keys acc) →
  Py.dict_keys (foldl (sigma_step lsl usl md sd) (acc, []) ks).1 =
  Py.dict_keys acc ++ filter (λ sku, emits lsl usl md sd sku) ks.
Proof.
  revert acc. induction ks as [|k ks IH]; intros acc Hnd Hfresh.
  - cbn. by rewrite app_nil_r.
  - apply NoDup_cons in Hnd as [Hk Hnd].
    cbn [foldl]. rewrite sigma_fold_split. cbn [fst].
    rewrite filter_cons. unfold sigma_step.
    destruct (sigma_verdict lsl usl md sd k) as [| |v] eqn:Hv; cbn [fst].
    + rewrite decide_False by (unfold emits; rewrite Hv; by intros ?).
      apply IH; [done|]. intros k' Hk'. apply Hfresh. by right.
    + rewrite decide_False by (unfold emits; rewrite Hv; by intros ?).
      apply IH; [done|]. intros k' Hk'. apply Hfresh. by right.
    + rewrite decide_True by (unfold emits; by rewrite Hv).
      rewrite dict_set_fresh by (apply Hfresh; left).
      rewrite IH; [|done|].
      * unfold Py.dict_keys. rewrite fmap_app. cbn. by rewrite <- app_assoc.
      * intros k' Hk'. unfold Py.dict_keys. rewrite fmap_app. cbn.
        intros [Hin|Hin]%elem_of_app.
        -- by apply (Hfresh k'); [right|].
        -- apply list_elem_of_singleton in Hin as ->. done.
Qed.

Lemma sigma_table_keys lsl usl df :
  Py.dict_keys (sigma_table lsl usl df) =
  filter (λ sku, emits lsl usl (table group_mean df)
                   (table (group_var 1 true) df) sku)
    (group_keys df).
Proof.
  unfold sigma_table. rewrite sigma_fold_keys.
  - done.
  - apply group_keys_NoDup.
  - intros k _. apply not_elem_of_nil.
Qed.

Lemma group_keys_Sorted df : Sorted String.le (group_keys df).
Proof. apply (Sorted_merge_sort String.le). Qed.

Lemma group_keys_Permutation df1 df2 :
  df1 ≡ₚ df2 → group_keys df1 = group_keys df2.
Proof.
  intros Hperm. apply (Sorted_unique String.le).
  - apply group_keys_Sorted.
  - apply group_keys_Sorted.
  - apply NoDup_Permutation; [apply group_keys_NoDup..|].
    intros sku. rewrite !elem_of_group_keys.
    split; intros (r & Hr & Hs); exists r; split; try done.
    + by rewrite <- Hperm.
    + by rewrite Hperm.
Qed.

End key_order.

(** ** The application *)

Section app_facts.
Context {decimal : Type} (env : App.environment decimal).

Lemma lift_bind {A B} (m : Py.M A) (f : A → Py.M B) s :
  App.lift (Py.bind m f) s = App.bind (App.lift m) (λ a, App.lift (f a)) s.
Proof.
  unfold App.lift, App.bind, Py.bind.
  by destruct (m (App.py s)) as [[a|e] p].
Qed.

Lemma bind_ext {A B} (m m' : App.M A) (f f' : A → App.M B) s :
  m s = m' s → (∀ a s', f a s' = f' a s') →
  App.bind m f s = App.bind m' f' s.
Proof.
  intros Hm Hf. unfold App.bind. rewrite Hm.
  by destruct (m' s) as [[a|e|] s'].
Qed.

Lemma lift_for_each {A} (xs : list A) (body : A → Py.M unit) s :
  App.lift (Py.for_each xs body) s =
  App.for_each xs (λ x, App.lift (body x)) s.
Proof.
  revert s. induction xs as [|x xs IH]; intros s.
  - by destruct s.
  - cbn [Py.for_each App.for_each]. rewrite lift_bind.
    apply bind_ext; [done | intros _ s'; apply IH].
Qed.

Lemma for_each_ext {A} (xs : list A) (body body' : A → App.M unit) s :
  (∀ x s', body x s' = body' x s') →
  App.for_each xs body s = App.for_each xs body' s.
Proof.
  intros Hb. revert s. induction xs as [|x xs IH]; intros s; [done|].
  cbn [App.for_each]. apply bind_ext; [apply Hb | intros _ s'; apply IH].
Qed.

(** With two dictionaries for the limits, the loop body and [get_sigma] are
    those of the engine. *)
Lemma get_sigma_body_lift LSL USL md sd sg sku s :
  App.get_sigma_body (Some LSL) (Some USL) md sd sg sku s =
  App.lift (Stats.get_sigma_body LSL USL md sd sg sku) s.
Proof.
  destruct s as [p t].
  unfold App.get_sigma_body, Stats.get_sigma_body, App.contains, App.getitem.
  unfold App.bind, App.lift, Py.bind, Py.contains, Py.getitem, Py.truediv,
    Py.setitem, Py.print, Py.ret, Py.raise, App.ret.
  cbn [App.py App.trace].
  repeat (case_match; simplify_eq/=; try done).
Qed.

Lemma get_sigma_lift df LSL USL s :
  App.get_sigma df (Some LSL) (Some USL) s =
  App.lift (Stats.get_sigma df LSL USL) s.
Proof.
  unfold App.get_sigma, Stats.get_sigma.
  rewrite lift_bind. apply bind_ext; [done|]. intros md s1.
  rewrite lift_bind. apply bind_ext; [done|]. intros sd s2.
  rewrite lift_bind. apply bind_ext; [done|]. intros sg s3.
  rewrite lift_bind. apply bind_ext; [done|]. intros ks s4.
  rewrite lift_bind. apply bind_ext.
  - rewrite lift_for_each. apply for_each_ext. intros x s'.
    apply get_sigma_body_lift.
  - intros _ s5. by destruct s5.
Qed.

(** *** Reading the limits *)

Lemma dict_set_keys d k v :
  Py.dict_keys (Py.dict_set d k v) =
  if decide (k ∈ Py.dict_keys d) then Py.dict_keys d
  else Py.dict_keys d ++ [k].
Proof.
  unfold Py.dict_keys. induction d as [|[k0 v0] d IH]; cbn.
  - by rewrite decide_False by (by intros ?%elem_of_nil).
  - destruct (decide (k = k0)) as [->|Hne]; cbn.
    + by rewrite decide_True by (by left).
    + rewrite IH. destruct (decide (k ∈ d.*1)) as [Hin|Hnin].
      * by rewrite decide_True by (by right).
      * by rewrite decide_False by (by intros [?|?]%elem_of_cons).
Qed.

Lemma limits_snoc rows row :
  limits env (rows ++ [row]) =
  match row.2 with
  | Some cell =>
      Py.dict_set (limits env rows) row.1 (App.float_of_decimal env cell)
  | None => limits env rows
  end.
Proof. unfold limits. by rewrite foldl_app. Qed.

Lemma limits_get rows sku :
  Forall (λ row, is_Some row.2) rows →
  Py.dict_get (limits env rows) sku =
  App.float_of_decimal env <$> listed rows sku.
Proof.
  unfold listed. induction rows as [|[k cell] rows IH] using rev_ind; [done|].
  intros [Hrows [[c Hc] _]%Forall_cons]%Forall_app. cbn in Hc. subst cell.
  rewrite limits_snoc. cbn [fst snd]. rewrite dict_get_set.
  rewrite filter_app, filter_cons, filter_nil. cbn [fst].
  destruct (decide (sku = k)) as [->|Hne].
  - rewrite decide_True by done. by rewrite last_snoc.
  - rewrite decide_False by congruence. rewrite app_nil_r. by apply IH.
Qed.

Lemma limits_keys rows :
  Forall (λ row, is_Some row.2) rows →
  NoDup (Py.dict_keys (limits env rows)) ∧
  ∀ sku, sku ∈ Py.dict_keys (limits env rows) ↔ sku ∈ rows.*1.
Proof.
  induction rows as [|[k cell] rows IH] using rev_ind.
  - intros _. split; [constructor | done].
  - intros [Hrows [[c Hc] _]%Forall_cons]%Forall_app. cbn in Hc. subst cell.
    destruct (IH Hrows) as [Hnd Hin].
    rewrite limits_snoc. cbn [fst snd]. rewrite dict_set_keys.
    rewrite fmap_app. cbn [fmap list_fmap fst].
    destruct (decide (k ∈ Py.dict_keys (limits env rows))) as [Hk|Hk].
    + split; [done|]. intros sku. rewrite elem_of_app, list_elem_of_singleton.
      rewrite Hin. split; [by left|]. intros [?| ->]; [done | by apply Hin].
    + split.
      * apply NoDup_app. split_and!; [done| |apply NoDup_singleton].
        by intros sku ? ->%list_elem_of_singleton.
      * intros sku. rewrite !elem_of_app, !list_elem_of_singleton.
        by rewrite Hin.
Qed.

(** One entry of the comprehension. *)
Lemma dict_of_rows_entry d k c H out t acc :
  H !! d = Some acc →
  (limit <~ App.float_of_cell env (Some c) ;;
   App.lift (Py.setitem d k limit)) (App.State (Py.PyState H out) t) =
  (App.Ok tt,
   App.State
     (Py.PyState (<[d := Py.dict_set acc k (App.float_of_decimal env c)]> H)
        out) t).
Proof.
  intros Hd. unfold App.bind, App.lift, Py.setitem.
  cbn [App.float_of_cell App.ret App.py App.trace Py.heap Py.stdout].
  by rewrite (list_lookup_total_correct _ _ _ Hd).
Qed.

(** The loop of the comprehension. *)
Lemma dict_of_rows_loop rows H out t d acc :
  H !! d = Some acc →
  Forall (λ row, is_Some row.2) rows →
  App.for_each rows
    (λ row, limit <~ App.float_of_cell env row.2 ;;
            App.lift (Py.setitem d row.1 limit))
    (App.State (Py.PyState H out) t) =
  (App.Ok tt,
   App.State
     (Py.PyState
        (<[d := foldl (λ d row,
                  match row.2 with
                  | Some cell =>
                      Py.dict_set d row.1 (App.float_of_decimal env cell)
                  | None => d
                  end) acc rows]> H) out) t).
Proof.
  revert H acc. induction rows as [|[k cell] rows IH]; intros H acc Hd.
  - intros _. cbn. by rewrite list_insert_id.
  - intros [[c Hc] Hrows]%Forall_cons. cbn in Hc. subst cell.
    cbn [App.for_each foldl]. unfold App.bind at 1. cbn beta. cbn [fst snd].
    rewrite (dict_of_rows_entry _ _ _ _ _ _ _ Hd).
    rewrite (IH _ (Py.dict_set acc k (App.float_of_decimal env c))).
    + by rewrite list_insert_insert_eq.
    + apply list_lookup_insert_eq. by apply lookup_lt_Some in Hd.
    + done.
Qed.

(** With a NULL cell the loop raises; it has touched its own dictionary
    only. *)
Lemma dict_of_rows_loop_null rows H out t d acc :
  H !! d = Some acc →
  Exists (λ row, row.2 = None) rows →
  ∃ acc',
    App.for_each rows
      (λ row, limit <~ App.float_of_cell env row.2 ;;
              App.lift (Py.setitem d row.1 limit))
      (App.State (Py.PyState H out) t) =
    (App.Err App.TypeError, App.State (Py.PyState (<[d := acc']> H) out) t).
Proof.
  revert H acc. induction rows as [|[k cell] rows IH]; intros H acc Hd.
  - by intros ?%Exists_nil.
  - intros Hex. cbn [App.for_each]. unfold App.bind at 1. cbn beta.
    cbn [fst snd]. destruct cell as [c|].
    + apply Exists_cons in Hex as [Hex|Hex]; [done|].
      rewrite (dict_of_rows_entry _ _ _ _ _ _ _ Hd).
      destruct (IH (<[d := Py.dict_set acc k (App.float_of_decimal env c)]> H)
                  (Py.dict_set acc k (App.float_of_decimal env c)))
        as [acc' ->]; [|done|].
      { apply list_lookup_insert_eq. by apply lookup_lt_Some in Hd. }
      exists acc'. by rewrite list_insert_insert_eq.
    + exists acc. unfold App.bind. cbn [App.float_of_cell App.raise].
      by rewrite list_insert_id.
Qed.

(** The comprehension. *)
Lemma dict_of_rows_run rows s :
  Forall (λ row, is_Some row.2) rows →
  App.dict_of_rows env rows s =
  (App.Ok (length (Py.heap (App.py s))),
   App.State
     (Py.PyState (Py.heap (App.py s) ++ [limits env rows])
        (Py.stdout (App.py s)))
     (App.trace s)).
Proof.
  intros Hrows. destruct s as [[H out] t]. unfold App.dict_of_rows.
  unfold App.bind at 1. unfold App.lift at 1, Py.new_dict.
  cbn [App.py App.trace Py.heap Py.stdout].
  unfold App.bind at 1.
  rewrite (dict_of_rows_loop rows _ _ _ _ []) by
    (done || by rewrite lookup_app_r, Nat.sub_diag by done).
  cbn [App.ret]. do 3 f_equal.
  rewrite insert_app_r_alt by done. by rewrite Nat.sub_diag.
Qed.

Lemma dict_of_rows_null rows s :
  Exists (λ row, row.2 = None) rows →
  ∃ acc',
    App.dict_of_rows env rows s =
    (App.Err App.TypeError,
     App.State
       (Py.PyState (Py.heap (App.py s) ++ [acc']) (Py.stdout (App.py s)))
       (App.trace s)).
Proof.
  intros Hrows. destruct s as [[H out] t]. unfold App.dict_of_rows.
  unfold App.bind at 1. unfold App.lift at 1, Py.new_dict.
  cbn [App.py App.trace Py.heap Py.stdout].
  unfold App.bind at 1.
  destruct (dict_of_rows_loop_null rows (H ++ [[] : Py.pydict]) out t
              (length H) [])
    as [acc' ->]; [|done|].
  { by rewrite lookup_app_r, Nat.sub_diag by done. }
  exists acc'. do 3 f_equal.
  rewrite insert_app_r_alt by done. by rewrite Nat.sub_diag.
Qed.

(** A limits query, whatever its text and its handler. *)
Lemma fetch_run ev (handler : string → App.M (option Py.ref)) s rows :
  App.select_result env (App.trace s ++ [ev]) = App.Ok rows →
  Forall (λ row, is_Some row.2) rows →
  App.try_except_Error
    (results <~ App.outside (App.select_result env) ev ;;
     d <~ App.dict_of_rows env results ;;
     App.ret (Some d)) handler s =
  (App.Ok (Some (length (Py.heap (App.py s)))),
   App.State
     (Py.PyState (Py.heap (App.py s) ++ [limits env rows])
        (Py.stdout (App.py s)))
     (App.trace s ++ [ev])).
Proof.
  intros Hsel Hrows. unfold App.try_except_Error.
  unfold App.bind at 1. unfold App.outside. cbn zeta. rewrite Hsel.
  unfold App.bind at 1. by rewrite dict_of_rows_run.
Qed.

Lemma fetch_null ev (handler : string → App.M (option Py.ref)) s rows :
  App.select_result env (App.trace s ++ [ev]) = App.Ok rows →
  Exists (λ row, row.2 = None) rows →
  ∃ acc',
    App.try_except_Error
      (results <~ App.outside (App.select_result env) ev ;;
       d <~ App.dict_of_rows env results ;;
       App.ret (Some d)) handler s =
    (App.Err App.TypeError,
     App.State
       (Py.PyState (Py.heap (App.py s) ++ [acc']) (Py.stdout (App.py s)))
       (App.trace s ++ [ev])).
Proof.
  intros Hsel Hrows. unfold App.try_except_Error.
  unfold App.bind at 1. unfold App.outside. cbn zeta. rewrite Hsel.
  unfold App.bind at 1.
  destruct (dict_of_rows_null rows
              (App.State (App.py s) (App.trace s ++ [ev])) Hrows)
    as [acc' ->].
  by exists acc'.
Qed.

Lemma fetch_error ev (handler : string → App.M (option Py.ref)) s msg :
  App.select_result env (App.trace s ++ [ev]) = App.Err (App.MysqlError msg) →
  App.try_except_Error
    (results <~ App.outside (App.select_result env) ev ;;
     d <~ App.dict_of_rows env results ;;
     App.ret (Some d)) handler s =
  handler msg (App.State (App.py s) (App.trace s ++ [ev])).
Proof.
  intros Hsel. unfold App.try_except_Error.
  unfold App.bind at 1. unfold App.outside. cbn zeta. by rewrite Hsel.
Qed.

Lemma get_lsl_error db_name table_name s msg :
  App.select_result env (App.trace s ++ [select_lsl db_name table_name]) =
  App.Err (App.MysqlError msg) →
  App.get_lsl env db_name table_name s =
  (App.Ok None,
   App.State (App.py s)
     (App.trace s ++
      [select_lsl db_name table_name;
       App.Log App.ERROR ("Error getting LSL: " +:+ msg)])).
Proof.
  intros Hsel. unfold App.get_lsl. rewrite (fetch_error _ _ _ msg) by done.
  unfold App.bind, App.log, App.ret. cbn [App.py App.trace].
  by rewrite <- app_assoc.
Qed.

Lemma get_usl_error db_name table_name s msg :
  App.select_result env (App.trace s ++ [select_usl db_name table_name]) =
  App.Err (App.MysqlError msg) →
  App.get_usl env db_name table_name s =
  (App.Ok None,
   App.State (App.py s)
     (App.trace s ++
      [select_usl db_name table_name;
       App.Log App.ERROR ("Error getting USL: " +:+ msg)])).
Proof.
  intros Hsel. unfold App.get_usl. rewrite (fetch_error _ _ _ msg) by done.
  unfold App.bind, App.log, App.ret. cbn [App.py App.trace].
  by rewrite <- app_assoc.
Qed.

(** Any other way the query ends is passed on. *)
Lemma fetch_passed ev (handler : string → App.M (option Py.ref)) s :
  App.try_except_Error
    (results <~ App.outside (App.select_result env) ev ;;
     d <~ App.dict_of_rows env results ;;
     App.ret (Some d)) handler s =
  match App.select_result env (App.trace s ++ [ev]) with
  | App.Err (App.TypeError as e) | App.Err (App.Raised _ as e)
  | App.Err (App.OtherError _ as e) =>
      (App.Err e, App.State (App.py s) (App.trace s ++ [ev]))
  | App.Diverge => (App.Diverge, App.State (App.py s) (App.trace s ++ [ev]))
  | _ =>
      App.try_except_Error
        (results <~ App.outside (App.select_result env) ev ;;
         d <~ App.dict_of_rows env results ;;
         App.ret (Some d)) handler s
  end.
Proof.
  destruct (App.select_result env (App.trace s ++ [ev])) as [rows|[]|] eqn:Hsel;
    try done; unfold App.try_except_Error; unfold App.bind at 1;
    unfold App.outside; cbn zeta; by rewrite Hsel.
Qed.

(** *** [get_sigma] without limits *)

Lemma bind_lift_run {A B} (m : Py.M A) (f : A → App.M B) s a p :
  m (App.py s) = (Py.Return a, p) →
  App.bind (App.lift m) f s = f a (App.State p (App.trace s)).
Proof. intros Hm. unfold App.bind, App.lift. by rewrite Hm. Qed.

(** Up to its loop, [get_sigma] allocates the means, the standard
    deviations and an empty result. *)
Lemma app_get_sigma_run df LSL USL H out t :
  App.get_sigma df LSL USL (App.State (Py.PyState H out) t) =
  match
    App.for_each (group_keys df)
      (App.get_sigma_body LSL USL (length H) (S (length H)) (S (S (length H))))
      (App.State
         (Py.PyState
            (H ++ [table group_mean df; table (group_var 1 true) df; []]) out)
         t)
  with
  | (App.Ok _, s') => (App.Ok (S (S (length H))), s')
  | (App.Err e, s') => (App.Err e, s')
  | (App.Diverge, s') => (App.Diverge, s')
  end.
Proof.
  unfold App.get_sigma.
  erewrite bind_lift_run by apply get_mean_run.
  erewrite bind_lift_run by apply get_std_dev_run.
  unfold allocated. cbn [App.py App.trace Py.heap Py.stdout].
  erewrite bind_lift_run by reflexivity.
  cbn [App.py App.trace Py.heap Py.stdout].
  erewrite bind_lift_run by reflexivity.
  cbn [App.py App.trace Py.heap Py.stdout].
  rewrite !length_app. cbn [length].
  replace (length H + 1 + 1)%nat with (S (S (length H))) by lia.
  replace (length H + 1)%nat with (S (length H)) by lia.
  rewrite <- !app_assoc. cbn [app].
  rewrite loop_heap_mean, table_keys.
  unfold App.bind.
  by destruct (App.for_each _ _ _) as [[[]|e|] s'].
Qed.

Lemma get_sigma_loop_no_lsl USL md sd sg ks s :
  App.for_each ks (App.get_sigma_body None USL md sd sg) s =
  match ks with
  | [] => (App.Ok tt, s)
  | _ :: _ => (App.Err App.TypeError, s)
  end.
Proof. by destruct ks. Qed.

Lemma get_sigma_body_no_usl LSL lsl md sd sg sku p t :
  Py.heap p !! LSL = Some lsl →
  App.get_sigma_body (Some LSL) None md sd sg sku (App.State p t) =
  (if Py.dict_contains lsl sku then App.Err App.TypeError else App.Ok tt,
   App.State p t).
Proof.
  intros HL. unfold App.get_sigma_body, App.contains.
  unfold App.bind at 1. unfold App.lift at 1, Py.contains.
  cbn [App.py App.trace]. rewrite (list_lookup_total_correct _ _ _ HL).
  by destruct (Py.dict_contains lsl sku).
Qed.

Lemma get_sigma_loop_no_usl LSL lsl md sd sg ks p t :
  Py.heap p !! LSL = Some lsl →
  App.for_each ks (App.get_sigma_body (Some LSL) None md sd sg)
    (App.State p t) =
  (if decide (Exists (λ sku, sku ∈ Py.dict_keys lsl) ks)
   then App.Err App.TypeError else App.Ok tt, App.State p t).
Proof.
  intros HL. induction ks as [|k ks IH].
  - cbn. by rewrite decide_False by (by intros ?%Exists_nil).
  - cbn [App.for_each]. unfold App.bind at 1.
    rewrite (get_sigma_body_no_usl LSL lsl) by done.
    unfold Py.dict_contains.
    destruct (Py.dict_get lsl k) as [v|] eqn:Hk.
    + rewrite decide_True; [done|].
      apply Exists_cons_hd, dict_get_keys. by rewrite Hk.
    + rewrite IH. f_equal.
      assert (k ∉ Py.dict_keys lsl) as Hnk.
      { intros [v Hv]%dict_get_keys. congruence. }
      destruct (decide (Exists _ ks)) as [Hex|Hex].
      * by rewrite decide_True by (by apply Exists_cons_tl).
      * by rewrite decide_False by (by intros [?|?]%Exists_cons).
Qed.

(** *** Writing the results *)

Lemma bind_ok {A B} (m : App.M A) (f : A → App.M B) s a s' :
  m s = (App.Ok a, s') → App.bind m f s = f a s'.
Proof. intros Hm. unfold App.bind. by rewrite Hm. Qed.

Lemma bind_outside {A B} (answer : list App.event → App.result A)
    (f : A → App.M B) e s a :
  answer (App.trace s ++ [e]) = App.Ok a →
  App.bind (App.outside answer e) f s =
  f a (App.State (App.py s) (App.trace s ++ [e])).
Proof. intros Ha. apply bind_ok. unfold App.outside. cbn zeta. by rewrite Ha. Qed.

Section writes_run.
Hypothesis calls_return : ∀ t, App.call_result env t = App.Ok tt.

Lemma update_table_loop db_name table_name query (d : Py.pydict) s :
  App.for_each d
    (λ entry, App.update_table env db_name table_name query entry.1 entry.2)
    s =
  (App.Ok tt,
   App.State (App.py s) (App.trace s ++ writes db_name table_name query d)).
Proof.
  revert s. induction d as [|[k v] d IH]; intros s.
  - cbn. rewrite app_nil_r. by destruct s.
  - cbn [App.for_each]. unfold App.update_table at 1.
    rewrite (bind_outside _ _ _ _ tt) by apply calls_return.
    rewrite IH. cbn [App.py App.trace fst snd writes fmap list_fmap].
    by rewrite <- app_assoc.
Qed.

Lemma update_mean_run r d table s :
  Py.heap (App.py s) !! r = Some d →
  App.update_mean env r table s =
  (App.Ok tt,
   App.State (App.py s)
     (App.trace s ++
      writes (App.DB_NAME env) table (App.mean_query table) d)).
Proof.
  intros Hr. unfold App.update_mean, App.bind, App.items.
  rewrite (list_lookup_total_correct _ _ _ Hr). apply update_table_loop.
Qed.

Lemma update_variance_run r d table s :
  Py.heap (App.py s) !! r = Some d →
  App.update_variance env r table s =
  (App.Ok tt,
   App.State (App.py s)
     (App.trace s ++
      writes (App.DB_NAME env) table (App.variance_query table) d)).
Proof.
  intros Hr. unfold App.update_variance, App.bind, App.items.
  rewrite (list_lookup_total_correct _ _ _ Hr). apply update_table_loop.
Qed.

Lemma update_std_dev_run r d table s :
  Py.heap (App.py s) !! r = Some d →
  App.update_std_dev env r table s =
  (App.Ok tt,
   App.State (App.py s)
     (App.trace s ++
      writes (App.DB_NAME env) table (App.std_dev_query table) d)).
Proof.
  intros Hr. unfold App.update_std_dev, App.bind, App.items.
  rewrite (list_lookup_total_correct _ _ _ Hr). apply update_table_loop.
Qed.

Lemma update_sigma_run r d table s :
  Py.heap (App.py s) !! r = Some d →
  App.update_sigma env r table s =
  (App.Ok tt,
   App.State (App.py s)
     (App.trace s ++
      writes (App.DB_NAME env) (App.TABLE_NAME env) (App.sigma_query table)
        d)).
Proof.
  intros Hr. unfold App.update_sigma, App.bind, App.items.
  rewrite (list_lookup_total_correct _ _ _ Hr). apply update_table_loop.
Qed.

End writes_run.

(** *** A run of [do_analysis] *)

Ltac heap_lookup :=
  cbn [App.py Py.heap];
  rewrite <- ?app_assoc; cbn [app]; rewrite ?length_app; cbn [length];
  rewrite lookup_app_r by lia;
  match goal with
  | |- ?l !! ?n = _ =>
      first [ replace n with 0%nat by lia | replace n with 1%nat by lia
            | replace n with 2%nat by lia | replace n with 3%nat by lia
            | replace n with 4%nat by lia | replace n with 5%nat by lia
            | replace n with 6%nat by lia | replace n with 7%nat by lia ]
  end;
  reflexivity.

Section analysis_run.
Variables (s : App.state) (df : DataFrame).
Variables (lrows urows : list (string * option decimal)).
Hypothesis calls_return : ∀ t, App.call_result env t = App.Ok tt.
Hypothesis sheet :
  App.read_excel_result env
    (App.trace s ++ [App.ReadExcel (App.EXCEL_FILE env)]) = App.Ok df.
Hypothesis lower :
  App.select_result env
    (App.trace s ++ opening env ++
     [select_lsl (App.DB_NAME env) "noodles_data"]) = App.Ok lrows.
Hypothesis upper :
  App.select_result env
    (App.trace s ++ opening env ++
     [select_lsl (App.DB_NAME env) "noodles_data";
      select_usl (App.DB_NAME env) "noodles_data"]) = App.Ok urows.
Hypothesis lower_set : Forall (λ row, is_Some row.2) lrows.
Hypothesis upper_set : Forall (λ row, is_Some row.2) urows.

Lemma do_analysis_run :
  App.do_analysis env s =
  (App.Ok tt,
   App.State
     (Py.PyState
        (Py.heap (App.py s) ++
         [limits env lrows; limits env urows;
          table group_mean df; table (group_var 1 true) df;
          table (group_var 1 false) df;
          table group_mean df; table (group_var 1 true) df;
          sigma_table (limits env lrows) (limits env urows) df])
        (Py.stdout (App.py s) ++
         sigma_warnings (limits env lrows) (limits env urows) df))
     (App.trace s ++ opening env ++
      [select_lsl (App.DB_NAME env) "noodles_data";
       select_usl (App.DB_NAME env) "noodles_data"] ++
      results env (table group_mean df) (table (group_var 1 false) df)
        (table (group_var 1 true) df)
        (sigma_table (limits env lrows) (limits env urows) df) ++
      closing env)).
Proof.
  destruct s as [[H out] t]. cbn [App.py App.trace Py.heap Py.stdout] in *.
  rewrite app_assoc in lower.
  change [select_lsl (App.DB_NAME env) "noodles_data";
          select_usl (App.DB_NAME env) "noodles_data"]
    with ([select_lsl (App.DB_NAME env) "noodles_data"] ++
          [select_usl (App.DB_NAME env) "noodles_data"]) in upper.
  rewrite !app_assoc in upper.
  unfold App.do_analysis. cbn zeta.
  rewrite (bind_outside _ _ _ _ df) by exact sheet.
  unfold App.create_table.
  rewrite (bind_outside _ _ _ _ tt) by apply calls_return.
  unfold App.update_table_default.
  rewrite (bind_outside _ _ _ _ tt) by apply calls_return.
  cbn [App.py App.trace]. rewrite <- !app_assoc. cbn [app].
  erewrite bind_ok by (apply fetch_run; [exact lower | exact lower_set]).
  cbn [App.py App.trace Py.heap Py.stdout].
  erewrite bind_ok by (apply fetch_run; [exact upper | exact upper_set]).
  cbn [App.py App.trace Py.heap Py.stdout].
  erewrite bind_lift_run by apply get_mean_run.
  erewrite bind_lift_run by apply get_std_dev_run.
  erewrite bind_lift_run by apply get_variance_run.
  unfold allocated. cbn [App.py App.trace Py.heap Py.stdout].
  erewrite bind_ok.
  2:{ rewrite get_sigma_lift. unfold App.lift.
      cbn [App.py App.trace Py.heap Py.stdout].
      erewrite (get_sigma_run df _ _ (limits env lrows) (limits env urows));
        [reflexivity | heap_lookup | heap_lookup]. }
  cbn [App.py App.trace Py.heap Py.stdout].
  erewrite bind_ok by (apply update_mean_run; [done | heap_lookup]).
  erewrite bind_ok by (apply update_variance_run; [done | heap_lookup]).
  erewrite bind_ok by (apply update_std_dev_run; [done | heap_lookup]).
  erewrite bind_ok by (apply update_sigma_run; [done | heap_lookup]).
  cbn [App.py App.trace Py.heap Py.stdout].
  unfold App.visualize, closing, results, statistics, analysis_complete,
    opening, select_lsl, select_usl.
  destruct (App.VISUALIZE env).
  - rewrite (bind_outside _ _ _ _ tt) by apply calls_return.
    unfold App.log. cbn [App.py App.trace Py.heap Py.stdout].
    rewrite <- !app_assoc. cbn [app]. by rewrite <- ?app_assoc.
  - erewrite bind_ok by reflexivity.
    unfold App.log. cbn [App.py App.trace Py.heap Py.stdout].
    rewrite <- !app_assoc. cbn [app]. by rewrite <- ?app_assoc.
Qed.

End analysis_run.

(** *** [do_analysis] when a limits query fails *)

Lemma app_get_sigma_no_lsl df USL H out t :
  df ≠ [] →
  App.get_sigma df None USL (App.State (Py.PyState H out) t) =
  (App.Err App.TypeError,
   App.State
     (Py.PyState
        (H ++ [table group_mean df; table (group_var 1 true) df; []]) out)
     t).
Proof.
  intros Hne. rewrite app_get_sigma_run, get_sigma_loop_no_lsl.
  destruct (group_keys df) as [|k ks] eqn:Hk; [|done].
  exfalso. destruct df as [|r df]; [done|].
  assert (Sku r ∈ group_keys (r :: df)) as Hin
    by (apply elem_of_group_keys; exists r; split; [left | done]).
  rewrite Hk in Hin. by apply elem_of_nil in Hin.
Qed.

Lemma app_get_sigma_no_usl df LSL lsl H out t :
  H !! LSL = Some lsl →
  App.get_sigma df (Some LSL) None (App.State (Py.PyState H out) t) =
  (if decide (Exists (λ r, Sku r ∈ Py.dict_keys lsl) df)
   then App.Err App.TypeError else App.Ok (S (S (length H))),
   App.State
     (Py.PyState
        (H ++ [table group_mean df; table (group_var 1 true) df; []]) out)
     t).
Proof.
  intros HL. rewrite app_get_sigma_run.
  rewrite (get_sigma_loop_no_usl LSL lsl).
  2:{ cbn [Py.heap]. rewrite lookup_app_l; [done|].
      by apply lookup_lt_Some in HL. }
  destruct (decide (Exists (λ sku, sku ∈ Py.dict_keys lsl) (group_keys df)))
    as [Hex|Hex].
  - rewrite decide_True; [done|].
    apply Exists_exists in Hex as (sku & Hin & Hsku).
    apply elem_of_group_keys in Hin as (r & Hr & <-).
    apply Exists_exists. eauto.
  - rewrite decide_False; [done|].
    intros (r & Hr & Hsku)%Exists_exists. apply Hex.
    apply Exists_exists. exists (Sku r). split; [|done].
    apply elem_of_group_keys. eauto.
Qed.

Lemma bind_err {A B} (m : App.M A) (f : A → App.M B) s e s' :
  m s = (App.Err e, s') → App.bind m f s = (App.Err e, s').
Proof. intros Hm. unfold App.bind. by rewrite Hm. Qed.

Lemma bind_diverge {A B} (m : App.M A) (f : A → App.M B) s s' :
  m s = (App.Diverge, s') → App.bind m f s = (App.Diverge, s').
Proof. intros Hm. unfold App.bind. by rewrite Hm. Qed.

Lemma not_all_set (rows : list (string * option decimal)) :
  ¬ Forall (λ row, is_Some row.2) rows → Exists (λ row, row.2 = None) rows.
Proof.
  intros Hn. induction rows as [|[k [c|]] rows IH].
  - by destruct Hn.
  - apply Exists_cons_tl, IH. intros Hrows. apply Hn.
    constructor; [by eexists | done].
  - by apply Exists_cons_hd.
Qed.

Ltac close_run :=
  eexists; split;
  [ rewrite <- ?app_assoc; cbn [app]; rewrite ?app_nil_r; reflexivity
  | reflexivity ].

Section lower_fails.
Variables (s : App.state) (df : DataFrame) (msg : string).
Hypothesis calls_return : ∀ t, App.call_result env t = App.Ok tt.
Hypothesis sheet :
  App.read_excel_result env
    (App.trace s ++ [App.ReadExcel (App.EXCEL_FILE env)]) = App.Ok df.
Hypothesis some_row : df ≠ [].
Hypothesis lower :
  App.select_result env
    (App.trace s ++ opening env ++
     [select_lsl (App.DB_NAME env) "noodles_data"]) =
  App.Err (App.MysqlError msg).

Lemma do_analysis_lower_fails :
  ∃ p,
    App.do_analysis env s =
    (match
       App.select_result env
         (App.trace s ++ opening env ++
          [select_lsl (App.DB_NAME env) "noodles_data";
           App.Log App.ERROR ("Error getting LSL: " +:+ msg);
           select_usl (App.DB_NAME env) "noodles_data"])
     with
     | App.Ok _ | App.Err (App.MysqlError _) => App.Err App.TypeError
     | App.Err e => App.Err e
     | App.Diverge => App.Diverge
     end,
     App.State p
       (App.trace s ++ opening env ++
        [select_lsl (App.DB_NAME env) "noodles_data";
         App.Log App.ERROR ("Error getting LSL: " +:+ msg);
         select_usl (App.DB_NAME env) "noodles_data"] ++
        match
          App.select_result env
            (App.trace s ++ opening env ++
             [select_lsl (App.DB_NAME env) "noodles_data";
              App.Log App.ERROR ("Error getting LSL: " +:+ msg);
              select_usl (App.DB_NAME env) "noodles_data"])
        with
        | App.Err (App.MysqlError msg') =>
            [App.Log App.ERROR ("Error getting USL: " +:+ msg')]
        | _ => []
        end)) ∧
    Py.stdout p = Py.stdout (App.py s).
Proof.
  destruct s as [[H out] t]. cbn [App.py App.trace Py.heap Py.stdout] in *.
  rewrite app_assoc in lower.
  remember (App.select_result env
              (t ++ opening env ++
               [select_lsl (App.DB_NAME env) "noodles_data";
                App.Log App.ERROR ("Error getting LSL: " +:+ msg);
                select_usl (App.DB_NAME env) "noodles_data"]))
    as answer eqn:upper.
  symmetry in upper.
  change [select_lsl (App.DB_NAME env) "noodles_data";
          App.Log App.ERROR ("Error getting LSL: " +:+ msg);
          select_usl (App.DB_NAME env) "noodles_data"]
    with ([select_lsl (App.DB_NAME env) "noodles_data";
           App.Log App.ERROR ("Error getting LSL: " +:+ msg)] ++
          [select_usl (App.DB_NAME env) "noodles_data"]) in upper.
  rewrite !app_assoc in upper.
  unfold App.do_analysis. cbn zeta.
  rewrite (bind_outside _ _ _ _ df) by exact sheet.
  unfold App.create_table.
  rewrite (bind_outside _ _ _ _ tt) by apply calls_return.
  unfold App.update_table_default.
  rewrite (bind_outside _ _ _ _ tt) by apply calls_return.
  cbn [App.py App.trace]. rewrite <- (app_assoc t), <- (app_assoc t).
  cbn [app]. fold (opening env).
  erewrite bind_ok by (apply get_lsl_error; exact lower).
  cbn [App.py App.trace].
  destruct answer as [rows|[|msg'|e|name]|].
  - destruct (decide (Forall (λ row, is_Some row.2) rows)) as [Hset|Hnull].
    + erewrite bind_ok by (apply fetch_run; [exact upper | exact Hset]).
      cbn [App.py App.trace Py.heap Py.stdout].
      erewrite bind_lift_run by apply get_mean_run.
      erewrite bind_lift_run by apply get_std_dev_run.
      erewrite bind_lift_run by apply get_variance_run.
      unfold allocated. cbn [App.py App.trace Py.heap Py.stdout].
      erewrite bind_err by (apply app_get_sigma_no_lsl; exact some_row).
      close_run.
    + match goal with
      | |- context [App.bind (App.get_usl _ _ _) _ ?st] =>
          destruct (fetch_null
                      (select_usl (App.DB_NAME env) "noodles_data")
                      (λ e, _ <~ App.log App.ERROR
                                   ("Error getting USL: " +:+ e) ;;
                            App.ret None)
                      st rows upper (not_all_set rows Hnull)) as [acc' Hrun]
      end.
      erewrite bind_err by exact Hrun.
      cbn [App.py App.trace Py.heap Py.stdout]. close_run.
  - erewrite bind_err.
    2:{ unfold App.get_usl. rewrite fetch_passed.
        cbn [App.py App.trace]. fold (select_usl (App.DB_NAME env) "noodles_data").
        rewrite upper. reflexivity. }
    close_run.
  - erewrite bind_ok by (apply get_usl_error; exact upper).
    cbn [App.py App.trace Py.heap Py.stdout].
    erewrite bind_lift_run by apply get_mean_run.
    erewrite bind_lift_run by apply get_std_dev_run.
    erewrite bind_lift_run by apply get_variance_run.
    unfold allocated. cbn [App.py App.trace Py.heap Py.stdout].
    erewrite bind_err by (apply app_get_sigma_no_lsl; exact some_row).
    close_run.
  - erewrite bind_err.
    2:{ unfold App.get_usl. rewrite fetch_passed.
        cbn [App.py App.trace]. fold (select_usl (App.DB_NAME env) "noodles_data").
        rewrite upper. reflexivity. }
    close_run.
  - erewrite bind_err.
    2:{ unfold App.get_usl. rewrite fetch_passed.
        cbn [App.py App.trace]. fold (select_usl (App.DB_NAME env) "noodles_data").
        rewrite upper. reflexivity. }
    close_run.
  - erewrite bind_diverge.
    2:{ unfold App.get_usl. rewrite fetch_passed.
        cbn [App.py App.trace]. fold (select_usl (App.DB_NAME env) "noodles_data").
        rewrite upper. reflexivity. }
    close_run.
Qed.

End lower_fails.

Section upper_fails.
Variables (s : App.state) (df : DataFrame) (msg : string).
Variable lrows : list (string * option decimal).
Hypothesis calls_return : ∀ t, App.call_result env t = App.Ok tt.
Hypothesis sheet :
  App.read_excel_result env
    (App.trace s ++ [App.ReadExcel (App.EXCEL_FILE env)]) = App.Ok df.
Hypothesis lower :
  App.select_result env
    (App.trace s ++ opening env ++
     [select_lsl (App.DB_NAME env) "noodles_data"]) = App.Ok lrows.
Hypothesis lower_set : Forall (λ row, is_Some row.2) lrows.
Hypothesis upper :
  App.select_result env
    (App.trace s ++ opening env ++
     [select_lsl (App.DB_NAME env) "noodles_data";
      select_usl (App.DB_NAME env) "noodles_data"]) =
  App.Err (App.MysqlError msg).

Lemma do_analysis_upper_fails :
  ∃ p,
    App.do_analysis env s =
    (if decide (Exists (λ r, Sku r ∈ lrows.*1) df)
     then App.Err App.TypeError else App.Ok tt,
     App.State p
       (App.trace s ++ opening env ++
        [select_lsl (App.DB_NAME env) "noodles_data";
         select_usl (App.DB_NAME env) "noodles_data";
         App.Log App.ERROR ("Error getting USL: " +:+ msg)] ++
        if decide (Exists (λ r, Sku r ∈ lrows.*1) df) then []
        else statistics env (table group_mean df)
               (table (group_var 1 false) df) (table (group_var 1 true) df) ++
             closing env)) ∧
    Py.stdout p = Py.stdout (App.py s).
Proof.
  destruct s as [[H out] t]. cbn [App.py App.trace Py.heap Py.stdout] in *.
  rewrite app_assoc in lower.
  change [select_lsl (App.DB_NAME env) "noodles_data";
          select_usl (App.DB_NAME env) "noodles_data"]
    with ([select_lsl (App.DB_NAME env) "noodles_data"] ++
          [select_usl (App.DB_NAME env) "noodles_data"]) in upper.
  rewrite !app_assoc in upper.
  unfold App.do_analysis. cbn zeta.
  rewrite (bind_outside _ _ _ _ df) by exact sheet.
  unfold App.create_table.
  rewrite (bind_outside _ _ _ _ tt) by apply calls_return.
  unfold App.update_table_default.
  rewrite (bind_outside _ _ _ _ tt) by apply calls_return.
  cbn [App.py App.trace]. rewrite <- (app_assoc t), <- (app_assoc t).
  cbn [app]. fold (opening env).
  erewrite bind_ok by (apply fetch_run; [exact lower | exact lower_set]).
  cbn [App.py App.trace Py.heap Py.stdout].
  erewrite bind_ok by (apply get_usl_error; exact upper).
  cbn [App.py App.trace Py.heap Py.stdout].
  erewrite bind_lift_run by apply get_mean_run.
  erewrite bind_lift_run by apply get_std_dev_run.
  erewrite bind_lift_run by apply get_variance_run.
  unfold allocated. cbn [App.py App.trace Py.heap Py.stdout].
  assert (∀ P : row → Prop, (∀ r, P r ↔ Sku r ∈ lrows.*1) →
          Exists P df ↔ Exists (λ r, Sku r ∈ lrows.*1) df) as Hsame.
  { intros P HP. rewrite !Exists_exists. by setoid_rewrite HP. }
  destruct (decide (Exists (λ r, Sku r ∈ lrows.*1) df)) as [Hex|Hex].
  - erewrite bind_err.
    2:{ erewrite (app_get_sigma_no_usl df _ (limits env lrows))
          by heap_lookup.
        rewrite decide_True; [reflexivity|].
        apply Hsame; [|done]. intros r.
        by apply (limits_keys lrows lower_set). }
    close_run.
  - erewrite bind_ok.
    2:{ erewrite (app_get_sigma_no_usl df _ (limits env lrows))
          by heap_lookup.
        rewrite decide_False; [reflexivity|].
        intros Hex'. apply Hex.
        apply (Hsame (λ r, Sku r ∈ Py.dict_keys (limits env lrows)));
          [|exact Hex'].
        intros r. by apply (limits_keys lrows lower_set). }
    cbn [App.py App.trace Py.heap Py.stdout].
    erewrite bind_ok by (apply update_mean_run; [done | heap_lookup]).
    erewrite bind_ok by (apply update_variance_run; [done | heap_lookup]).
    erewrite bind_ok by (apply update_std_dev_run; [done | heap_lookup]).
    erewrite bind_ok by (apply update_sigma_run; [done | heap_lookup]).
    cbn [App.py App.trace Py.heap Py.stdout].
    unfold App.visualize, closing, statistics, analysis_complete.
    destruct (App.VISUALIZE env).
    + rewrite (bind_outside _ _ _ _ tt) by apply calls_return.
      unfold App.log. cbn [App.py App.trace Py.heap Py.stdout writes fmap
        list_fmap].
      rewrite ?app_nil_r. close_run.
    + erewrite bind_ok by reflexivity.
      unfold App.log. cbn [App.py App.trace Py.heap Py.stdout writes fmap
        list_fmap].
      rewrite ?app_nil_r. close_run.
Qed.

End upper_fails.

Section lower_null.
Variables (s : App.state) (df : DataFrame).
Variable lrows : list (string * option decimal).
Hypothesis calls_return : ∀ t, App.call_result env t = App.Ok tt.
Hypothesis sheet :
  App.read_excel_result env
    (App.trace s ++ [App.ReadExcel (App.EXCEL_FILE env)]) = App.Ok df.
Hypothesis lower :
  App.select_result env
    (App.trace s ++ opening env ++
     [select_lsl (App.DB_NAME env) "noodles_data"]) = App.Ok lrows.
Hypothesis lower_null : Exists (λ row, row.2 = None) lrows.

Lemma do_analysis_lower_null :
  ∃ p,
    App.do_analysis env s =
    (App.Err App.TypeError,
     App.State p
       (App.trace s ++ opening env ++
        [select_lsl (App.DB_NAME env) "noodles_data"])) ∧
    Py.stdout p = Py.stdout (App.py s).
Proof.
  destruct s as [[H out] t]. cbn [App.py App.trace Py.heap Py.stdout] in *.
  rewrite app_assoc in lower.
  unfold App.do_analysis. cbn zeta.
  rewrite (bind_outside _ _ _ _ df) by exact sheet.
  unfold App.create_table.
  rewrite (bind_outside _ _ _ _ tt) by apply calls_return.
  unfold App.update_table_default.
  rewrite (bind_outside _ _ _ _ tt) by apply calls_return.
  cbn [App.py App.trace]. rewrite <- (app_assoc t), <- (app_assoc t).
  cbn [app]. fold (opening env).
  match goal with
  | |- context [App.bind (App.get_lsl _ _ _) _ ?st] =>
      destruct (fetch_null
                  (select_lsl (App.DB_NAME env) "noodles_data")
                  (λ e, _ <~ App.log App.ERROR
                               ("Error getting LSL: " +:+ e) ;;
                        App.ret None)
                  st lrows lower lower_null) as [acc' Hrun]
  end.
  erewrite bind_err by exact Hrun.
  cbn [App.py App.trace Py.heap Py.stdout]. close_run.
Qed.

End lower_null.

End app_facts.

(** * The properties of the specification *)

(** ** C1: sigma is the smaller margin over the standard deviation *)

(** C1. Whenever [get_sigma] emits a value for a SKU, that SKU is bound in
    LSL and USL and has entries [mean] and [std] in what [get_mean] and
    [get_std_dev] return for the same dataset, and the emitted value is
    [min(USL[sku] - mean, mean - LSL[sku]) / std].  For the dataset
    {(A,65),(A,67),(A,63)} with LSL={A:60} and USL={A:70} the result is
    {A: 2.5}; with USL={A:80} (mean 65, std 2) the minimum is the lower
    margin 5, so the result is again 2.5 and not 15/2 = 7.5. *)
Theorem C1_sigma_formula :
  (∀ (df : DataFrame) (LSL USL : Py.ref) (lsl usl : Py.pydict)
     (σ : Py.pystate),
     Py.heap σ !! LSL = Some lsl →
     Py.heap σ !! USL = Some usl →
     ∃ sigma_dict mean_dict std_dict,
       Py.returned_dict (get_sigma df LSL USL) σ = Some sigma_dict ∧
       Py.returned_dict (get_mean df) σ = Some mean_dict ∧
       Py.returned_dict (get_std_dev df) σ = Some std_dict ∧
       ∀ sku sigma,
         Py.dict_get sigma_dict sku = Some sigma →
         ∃ l u mean std,
           Py.dict_get lsl sku = Some l ∧
           Py.dict_get usl sku = Some u ∧
           Py.dict_get mean_dict sku = Some mean ∧
           Py.dict_get std_dict sku = Some std ∧
           sigma = Py.min (u - mean) (mean - l) / std) ∧
  (∀ (LSL USL : Py.ref) (σ : Py.pystate),
     Py.heap σ !! LSL = Some [("A"%string, 60)] →
     Py.heap σ !! USL = Some [("A"%string, 70)] →
     Py.returned_dict (get_sigma rows_sigma LSL USL) σ =
     Some [("A"%string, 2.5)]) ∧
  (∀ (LSL USL : Py.ref) (σ : Py.pystate),
     Py.heap σ !! LSL = Some [("A"%string, 60)] →
     Py.heap σ !! USL = Some [("A"%string, 80)] →
     Py.returned_dict (get_mean rows_sigma) σ = Some [("A"%string, 65)] ∧
     Py.returned_dict (get_std_dev rows_sigma) σ = Some [("A"%string, 2)] ∧
     Py.returned_dict (get_sigma rows_sigma LSL USL) σ =
     Some [("A"%string, 2.5)]) ∧
  Py.min (80 - 65) (65 - 60) = 65 - 60 ∧
  (65 - 60) / 2 = 2.5 ∧
  (80 - 65) / 2 = 7.5.
Proof.
  split; [|split; [|split]].
  - intros df LSL USL lsl usl σ HL HU.
    exists (sigma_table lsl usl df), (table group_mean df),
      (table (group_var 1 true) df).
    split; [by apply get_sigma_returns|].
    split; [apply get_mean_returns|].
    split; [apply get_std_dev_returns|].
    intros sku sigma. rewrite sigma_table_get. unfold sigma_verdict.
    destruct (Py.dict_get lsl sku) as [l|]; [|done].
    destruct (Py.dict_get usl sku) as [u|]; [|done].
    destruct (Py.dict_get (table (group_var 1 true) df) sku) as [std|];
      [|done].
    destruct (Py.dict_get (table group_mean df) sku) as [mean|]; [|done].
    destruct (std =? 0); [done|]. intros [= <-].
    by exists l, u, mean, std.
  - intros LSL USL σ HL HU.
    by rewrite (get_sigma_returns _ _ _ _ _ _ HL HU).
  - intros LSL USL σ HL HU.
    rewrite get_mean_returns, get_std_dev_returns.
    by rewrite (get_sigma_returns _ _ _ _ _ _ HL HU).
  - done.
Qed.

Lemma C1_sigma_formula_witness :
  ∃ sigma_dict mean_dict std_dict,
    Py.returned_dict (get_sigma rows_single 0%nat 1%nat)
      (store [("A"%string, 60)] [("A"%string, 80)]) = Some sigma_dict ∧
    Py.returned_dict (get_mean rows_single)
      (store [("A"%string, 60)] [("A"%string, 80)]) = Some mean_dict ∧
    Py.returned_dict (get_std_dev rows_single)
      (store [("A"%string, 60)] [("A"%string, 80)]) = Some std_dict ∧
    ∀ sku sigma,
      Py.dict_get sigma_dict sku = Some sigma →
      ∃ l u mean std,
        Py.dict_get [("A"%string, 60)] sku = Some l ∧
        Py.dict_get [("A"%string, 80)] sku = Some u ∧
        Py.dict_get mean_dict sku = Some mean ∧
        Py.dict_get std_dict sku = Some std ∧
        sigma = Py.min (u - mean) (mean - l) / std.
Proof.
  apply (proj1 C1_sigma_formula rows_single 0%nat 1%nat
           [("A"%string, 60)] [("A"%string, 80)]
           (store [("A"%string, 60)] [("A"%string, 80)]));
    reflexivity.
Defined.

(** ** C2: the mean of a group *)




(** ** C3: standard deviation and variance *)




(** ** C4: a standard deviation of zero *)

(** The dataset {(A,65),(A,65)} has standard deviation 0 for A.  With bound
    maps that do not mention A, [get_sigma] leaves A out but prints nothing:
    the SKU is dropped by the test on the bound maps, before the test on
    the standard deviation that prints the warning. *)
Lemma C4_counterexample :
  Py.returned_dict (get_std_dev rows_zero) (store [] []) =
    Some [("A"%string, 0)] ∧
  (0 =? 0) = true ∧
  Py.returned_dict (get_sigma rows_zero 0%nat 1%nat) (store [] []) = Some [] ∧
  Py.printed (get_sigma rows_zero 0%nat 1%nat) (store [] []) = [] ∧
  (warning "A" ∉ Py.printed (get_sigma rows_zero 0%nat 1%nat) (store [] [])).
Proof.
  repeat split; try reflexivity.
  change (Py.printed _ _) with (@nil string). apply not_elem_of_nil.
Qed.

(** C4 (amended). If the standard deviation of a SKU compares equal to 0,
    [get_sigma] returns normally and leaves the SKU out of its result; it
    prints the warning for that SKU exactly when the SKU is bound in both
    LSL and USL.  For the dataset {(A,65),(A,65)} with LSL={A:60} and
    USL={A:70} the result is empty and the warning for A is printed. *)
Theorem C4_zero_std_skipped :
  (∀ (df : DataFrame) (LSL USL : Py.ref) (lsl usl : Py.pydict)
     (σ : Py.pystate) (std_dict : Py.pydict) (sku : string) (std : float),
     Py.heap σ !! LSL = Some lsl →
     Py.heap σ !! USL = Some usl →
     Py.returned_dict (get_std_dev df) σ = Some std_dict →
     Py.dict_get std_dict sku = Some std →
     (std =? 0) = true →
     ∃ sigma_dict,
       Py.returned_dict (get_sigma df LSL USL) σ = Some sigma_dict ∧
       (sku ∉ Py.dict_keys sigma_dict) ∧
       (warning sku ∈ Py.printed (get_sigma df LSL USL) σ ↔
        sku ∈ Py.dict_keys lsl ∧ sku ∈ Py.dict_keys usl)) ∧
  (∀ (LSL USL : Py.ref) (σ : Py.pystate),
     Py.heap σ !! LSL = Some [("A"%string, 60)] →
     Py.heap σ !! USL = Some [("A"%string, 70)] →
     Py.returned_dict (get_std_dev rows_zero) σ = Some [("A"%string, 0)] ∧
     Py.returned_dict (get_sigma rows_zero LSL USL) σ = Some [] ∧
     Py.printed (get_sigma rows_zero LSL USL) σ = [warning "A"]).
Proof.
  split.
  - intros df LSL USL lsl usl σ std_dict sku std HL HU Hsd Hstd Hz.
    rewrite get_std_dev_returns in Hsd. injection Hsd as <-.
    exists (sigma_table lsl usl df).
    rewrite (get_sigma_printed _ _ _ _ _ _ HL HU), elem_of_sigma_warnings.
    rewrite <- !dict_get_keys, sigma_table_get.
    split; [by apply get_sigma_returns|].
    assert (is_Some (Py.dict_get (table group_mean df) sku)) as [mean Hmean].
    { apply dict_get_keys. rewrite table_keys.
      rewrite <- (table_keys (group_var 1 true) df).
      apply dict_get_keys. eauto. }
    unfold sigma_verdict. rewrite Hstd, Hmean, Hz.
    destruct (Py.dict_get lsl sku) as [l|], (Py.dict_get usl sku) as [u|].
    + split; [by intros [? ?] | split; eauto].
    + split; [by intros [? ?] | split; [done | by intros [_ [? ?]]]].
    + split; [by intros [? ?] | split; [done | by intros [[? ?] _]]].
    + split; [by intros [? ?] | split; [done | by intros [[? ?] _]]].
  - intros LSL USL σ HL HU.
    rewrite get_std_dev_returns.
    rewrite (get_sigma_returns _ _ _ _ _ _ HL HU).
    by rewrite (get_sigma_printed _ _ _ _ _ _ HL HU).
Qed.

Lemma C4_zero_std_skipped_witness :
  ∃ sigma_dict,
    Py.returned_dict (get_sigma rows_two 0%nat 1%nat)
      (store [("A"%string, 60)] [("A"%string, 70)]) = Some sigma_dict ∧
    ("A"%string ∉ Py.dict_keys sigma_dict) ∧
    (warning "A" ∈
       Py.printed (get_sigma rows_two 0%nat 1%nat)
         (store [("A"%string, 60)] [("A"%string, 70)]) ↔
     "A"%string ∈ Py.dict_keys [("A"%string, 60)] ∧
     "A"%string ∈ Py.dict_keys [("A"%string, 70)]).
Proof.
  apply (proj1 C4_zero_std_skipped rows_two 0%nat 1%nat
           [("A"%string, 60)] [("A"%string, 70)]
           (store [("A"%string, 60)] [("A"%string, 70)])
           [("A"%string, 0); ("B"%string, PrimFloat.sqrt 7)] "A" 0);
    reflexivity.
Defined.

(** ** C5: SKUs without a bound are left out silently *)

(** C5. A SKU that [get_mean] reports but that is missing from the LSL map,
    from the USL map or from what [get_std_dev] returns is not a key of what
    [get_sigma] returns; the call returns normally and prints no warning
    for that SKU. *)
Theorem C5_missing_bound_skipped
    (df : DataFrame) (LSL USL : Py.ref) (lsl usl : Py.pydict)
    (σ : Py.pystate) (mean_dict std_dict : Py.pydict) (sku : string) :
  Py.heap σ !! LSL = Some lsl →
  Py.heap σ !! USL = Some usl →
  Py.returned_dict (get_mean df) σ = Some mean_dict →
  Py.returned_dict (get_std_dev df) σ = Some std_dict →
  sku ∈ Py.dict_keys mean_dict →
  (sku ∉ Py.dict_keys lsl) ∨ (sku ∉ Py.dict_keys usl) ∨
    (sku ∉ Py.dict_keys std_dict) →
  ∃ sigma_dict,
    Py.returned_dict (get_sigma df LSL USL) σ = Some sigma_dict ∧
    (sku ∉ Py.dict_keys sigma_dict) ∧
    (warning sku ∉ Py.printed (get_sigma df LSL USL) σ).
Proof.
  intros HL HU Hmean Hstd _ Hmissing.
  rewrite get_std_dev_returns in Hstd. injection Hstd as <-.
  exists (sigma_table lsl usl df).
  rewrite (get_sigma_printed _ _ _ _ _ _ HL HU), elem_of_sigma_warnings.
  rewrite <- dict_get_keys, sigma_table_get.
  rewrite <- !dict_get_keys in Hmissing.
  split; [by apply get_sigma_returns|].
  unfold sigma_verdict.
  destruct (Py.dict_get lsl sku) as [l|];
    [|split; [by intros [? ?] | done]].
  destruct (Py.dict_get usl sku) as [u|];
    [|split; [by intros [? ?] | done]].
  destruct (Py.dict_get (table (group_var 1 true) df) sku) as [std|];
    [|split; [by intros [? ?] | done]].
  exfalso. destruct Hmissing as [Hm|[Hm|Hm]]; apply Hm; eauto.
Qed.

Lemma C5_missing_bound_skipped_witness :
  ∃ sigma_dict,
    Py.returned_dict (get_sigma rows_single 0%nat 1%nat)
      (store [("A"%string, 60)] [("A"%string, 70)]) = Some sigma_dict ∧
    ("C"%string ∉ Py.dict_keys sigma_dict) ∧
    (warning "C" ∉
       Py.printed (get_sigma rows_single 0%nat 1%nat)
         (store [("A"%string, 60)] [("A"%string, 70)])).
Proof.
  apply (C5_missing_bound_skipped rows_single 0%nat 1%nat
           [("A"%string, 60)] [("A"%string, 70)]
           (store [("A"%string, 60)] [("A"%string, 70)])
           [("A"%string, 65); ("C"%string, 1)]
           [("A"%string, 2); ("C"%string, nan)] "C").
  - reflexivity.
  - reflexivity.
  - reflexivity.
  - reflexivity.
  - apply (proj1 (dict_get_keys _ _)). vm_compute. eauto.
  - left. intros Hin. apply (proj2 (dict_get_keys _ _)) in Hin.
    vm_compute in Hin. by destruct Hin.
Defined.

(** ** C6: the empty dataset *)

(** C6. On the empty dataset each of the four operations returns normally,
    and what it returns is the empty dictionary. *)
Theorem C6_empty_dataset (σ : Py.pystate) (LSL USL : Py.ref) :
  Py.returned_dict (get_mean []) σ = Some [] ∧
  Py.returned_dict (get_variance []) σ = Some [] ∧
  Py.returned_dict (get_std_dev []) σ = Some [] ∧
  Py.returned_dict (get_sigma [] LSL USL) σ = Some [].
Proof.
  rewrite get_mean_returns, get_variance_returns, get_std_dev_returns.
  repeat split; try done.
  unfold Py.returned_dict. rewrite get_sigma_empty_run. cbn [Py.heap].
  rewrite lookup_app_r by lia.
  by replace (S (S (length (Py.heap σ))) - length (Py.heap σ))%nat
    with 2%nat by lia.
Qed.

(** ** C7: key sets *)

(** C7. Every key of what [get_mean] returns is a key of what
    [get_variance] and [get_std_dev] return; every key of what [get_sigma]
    returns is a key of the mean, of LSL, of USL and of the standard
    deviations, and its standard deviation does not compare equal to 0. *)
Theorem C7_key_sets
    (df : DataFrame) (LSL USL : Py.ref) (lsl usl : Py.pydict)
    (σ : Py.pystate) :
  Py.heap σ !! LSL = Some lsl →
  Py.heap σ !! USL = Some usl →
  ∃ mean_dict variance_dict std_dict sigma_dict,
    Py.returned_dict (get_mean df) σ = Some mean_dict ∧
    Py.returned_dict (get_variance df) σ = Some variance_dict ∧
    Py.returned_dict (get_std_dev df) σ = Some std_dict ∧
    Py.returned_dict (get_sigma df LSL USL) σ = Some sigma_dict ∧
    Py.dict_keys mean_dict ⊆ Py.dict_keys variance_dict ∧
    Py.dict_keys mean_dict ⊆ Py.dict_keys std_dict ∧
    ∀ sku,
      sku ∈ Py.dict_keys sigma_dict →
      sku ∈ Py.dict_keys mean_dict ∧
      sku ∈ Py.dict_keys lsl ∧
      sku ∈ Py.dict_keys usl ∧
      sku ∈ Py.dict_keys std_dict ∧
      ∃ std, Py.dict_get std_dict sku = Some std ∧ (std =? 0) = false.
Proof.
  intros HL HU.
  exists (table group_mean df), (table (group_var 1 false) df),
    (table (group_var 1 true) df), (sigma_table lsl usl df).
  split; [apply get_mean_returns|].
  split; [apply get_variance_returns|].
  split; [apply get_std_dev_returns|].
  split; [by apply get_sigma_returns|].
  rewrite !table_keys. split; [done|]. split; [done|].
  intros sku. rewrite <- (table_keys group_mean df) at 1.
  rewrite <- (table_keys (group_var 1 true) df).
  rewrite <- !dict_get_keys, sigma_table_get. unfold sigma_verdict.
  destruct (Py.dict_get lsl sku) as [l|]; [|by intros [? ?]].
  destruct (Py.dict_get usl sku) as [u|]; [|by intros [? ?]].
  destruct (Py.dict_get (table (group_var 1 true) df) sku) as [std|];
    [|by intros [? ?]].
  destruct (Py.dict_get (table group_mean df) sku) as [mean|];
    [|by intros [? ?]].
  destruct (std =? 0) eqn:Hz; [by intros [? ?]|].
  intros _. repeat split; eauto.
Qed.

Lemma C7_key_sets_witness :
  ∃ mean_dict variance_dict std_dict sigma_dict,
    Py.returned_dict (get_mean rows_two)
      (store [("A"%string, 60); ("B"%string, 0)] [("B"%string, 4)]) =
      Some mean_dict ∧
    Py.returned_dict (get_variance rows_two)
      (store [("A"%string, 60); ("B"%string, 0)] [("B"%string, 4)]) =
      Some variance_dict ∧
    Py.returned_dict (get_std_dev rows_two)
      (store [("A"%string, 60); ("B"%string, 0)] [("B"%string, 4)]) =
      Some std_dict ∧
    Py.returned_dict (get_sigma rows_two 0%nat 1%nat)
      (store [("A"%string, 60); ("B"%string, 0)] [("B"%string, 4)]) =
      Some sigma_dict ∧
    Py.dict_keys mean_dict ⊆ Py.dict_keys variance_dict ∧
    Py.dict_keys mean_dict ⊆ Py.dict_keys std_dict ∧
    ∀ sku,
      sku ∈ Py.dict_keys sigma_dict →
      sku ∈ Py.dict_keys mean_dict ∧
      sku ∈ Py.dict_keys [("A"%string, 60); ("B"%string, 0)] ∧
      sku ∈ Py.dict_keys [("B"%string, 4)] ∧
      sku ∈ Py.dict_keys std_dict ∧
      ∃ std, Py.dict_get std_dict sku = Some std ∧ (std =? 0) = false.
Proof.
  apply (C7_key_sets rows_two 0%nat 1%nat
           [("A"%string, 60); ("B"%string, 0)] [("B"%string, 4)]
           (store [("A"%string, 60); ("B"%string, 0)] [("B"%string, 4)]));
    reflexivity.
Defined.

(** ** C8: determinism *)

(** C8. What each operation returns is determined by its inputs alone: the
    dataset and, for [get_sigma], the contents of the two bound maps.
    Called twice in a row, an operation returns equal dictionaries.  More
    generally the state a call starts from (which objects exist, where the
    bound maps live, what was printed before) changes neither the returned
    dictionary nor, for [get_sigma], the warnings printed. *)
Theorem C8_deterministic (df : DataFrame) (σ1 σ2 : Py.pystate) :
  (same_result_twice (get_mean df) σ1 ∧
   Py.returned_dict (get_mean df) σ1 = Py.returned_dict (get_mean df) σ2) ∧
  (same_result_twice (get_variance df) σ1 ∧
   Py.returned_dict (get_variance df) σ1 =
   Py.returned_dict (get_variance df) σ2) ∧
  (same_result_twice (get_std_dev df) σ1 ∧
   Py.returned_dict (get_std_dev df) σ1 =
   Py.returned_dict (get_std_dev df) σ2) ∧
  (∀ (LSL1 USL1 LSL2 USL2 : Py.ref) (lsl usl : Py.pydict),
     Py.heap σ1 !! LSL1 = Some lsl → Py.heap σ1 !! USL1 = Some usl →
     Py.heap σ2 !! LSL2 = Some lsl → Py.heap σ2 !! USL2 = Some usl →
     same_result_twice (get_sigma df LSL1 USL1) σ1 ∧
     Py.returned_dict (get_sigma df LSL1 USL1) σ1 =
     Py.returned_dict (get_sigma df LSL2 USL2) σ2 ∧
     Py.printed (get_sigma df LSL1 USL1) σ1 =
     Py.printed (get_sigma df LSL2 USL2) σ2).
Proof.
  rewrite !get_mean_returns, !get_variance_returns, !get_std_dev_returns.
  split; [split; [|done]|].
  { apply same_result_twice_allocated with (table group_mean df).
    intros σ. apply get_mean_run. }
  split; [split; [|done]|].
  { apply same_result_twice_allocated with (table (group_var 1 false) df).
    intros σ. apply get_variance_run. }
  split; [split; [|done]|].
  { apply same_result_twice_allocated with (table (group_var 1 true) df).
    intros σ. apply get_std_dev_run. }
  intros LSL1 USL1 LSL2 USL2 lsl usl HL1 HU1 HL2 HU2.
  rewrite (get_sigma_returns _ _ _ _ _ _ HL1 HU1).
  rewrite (get_sigma_returns _ _ _ _ _ _ HL2 HU2).
  rewrite (get_sigma_printed _ _ _ _ _ _ HL1 HU1).
  rewrite (get_sigma_printed _ _ _ _ _ _ HL2 HU2).
  split; [|done]. by apply same_result_twice_get_sigma with lsl usl.
Qed.

Lemma C8_deterministic_witness :
  same_result_twice (get_sigma rows_two 0%nat 1%nat)
    (store [("A"%string, 60); ("B"%string, 0)]
       [("A"%string, 70); ("B"%string, 4)]) ∧
  Py.returned_dict (get_sigma rows_two 0%nat 1%nat)
    (store [("A"%string, 60); ("B"%string, 0)]
       [("A"%string, 70); ("B"%string, 4)]) =
  Py.returned_dict (get_sigma rows_two 2%nat 0%nat)
    (Py.PyState
       [[("A"%string, 70); ("B"%string, 4)]; [];
        [("A"%string, 60); ("B"%string, 0)]]
       ["earlier output"]) ∧
  Py.printed (get_sigma rows_two 0%nat 1%nat)
    (store [("A"%string, 60); ("B"%string, 0)]
       [("A"%string, 70); ("B"%string, 4)]) =
  Py.printed (get_sigma rows_two 2%nat 0%nat)
    (Py.PyState
       [[("A"%string, 70); ("B"%string, 4)]; [];
        [("A"%string, 60); ("B"%string, 0)]]
       ["earlier output"]).
Proof.
  apply (proj2 (proj2 (proj2 (C8_deterministic rows_two
           (store [("A"%string, 60); ("B"%string, 0)]
              [("A"%string, 70); ("B"%string, 4)])
           (Py.PyState
              [[("A"%string, 70); ("B"%string, 4)]; [];
               [("A"%string, 60); ("B"%string, 0)]]
              ["earlier output"]))))
           0%nat 1%nat 2%nat 0%nat
           [("A"%string, 60); ("B"%string, 0)]
           [("A"%string, 70); ("B"%string, 4)]);
    reflexivity.
Defined.

(** ** C9: the bound maps are only read *)

(** C9. [get_sigma] returns normally and leaves the LSL and USL dictionaries
    as they were; so is every dictionary that existed before the call, and
    the dictionary it returns is a new object, distinct from both. *)
Theorem C9_bounds_unchanged
    (df : DataFrame) (LSL USL : Py.ref) (lsl usl : Py.pydict)
    (σ : Py.pystate) :
  Py.heap σ !! LSL = Some lsl →
  Py.heap σ !! USL = Some usl →
  ∃ sigma_dict σ',
    get_sigma df LSL USL σ = (Py.Return sigma_dict, σ') ∧
    Py.heap σ' !! LSL = Some lsl ∧
    Py.heap σ' !! USL = Some usl ∧
    (∀ r d, Py.heap σ !! r = Some d → Py.heap σ' !! r = Some d) ∧
    sigma_dict ≠ LSL ∧ sigma_dict ≠ USL.
Proof.
  intros HL HU. eexists _, _.
  split; [by apply get_sigma_run|]. cbn [Py.heap].
  assert (∀ r d, Py.heap σ !! r = Some d →
    (Py.heap σ ++ [table group_mean df; table (group_var 1 true) df;
                   sigma_table lsl usl df]) !! r = Some d) as Hold
    by (intros r d Hr; by apply lookup_app_l_Some).
  apply lookup_lt_Some in HL as HLlt. apply lookup_lt_Some in HU as HUlt.
  repeat split; auto; lia.
Qed.

Lemma C9_bounds_unchanged_witness :
  ∃ sigma_dict σ',
    get_sigma rows_two 0%nat 0%nat
      (Py.PyState [[("A"%string, 60); ("B"%string, 2)]] []) =
      (Py.Return sigma_dict, σ') ∧
    Py.heap σ' !! 0%nat = Some [("A"%string, 60); ("B"%string, 2)] ∧
    Py.heap σ' !! 0%nat = Some [("A"%string, 60); ("B"%string, 2)] ∧
    (∀ r d,
       Py.heap (Py.PyState [[("A"%string, 60); ("B"%string, 2)]] []) !! r =
         Some d →
       Py.heap σ' !! r = Some d) ∧
    sigma_dict ≠ 0%nat ∧ sigma_dict ≠ 0%nat.
Proof.
  apply (C9_bounds_unchanged rows_two 0%nat 0%nat
           [("A"%string, 60); ("B"%string, 2)]
           [("A"%string, 60); ("B"%string, 2)]
           (Py.PyState [[("A"%string, 60); ("B"%string, 2)]] []));
    reflexivity.
Defined.

(** ** C10: a group with a single sample *)

(** C10. For a SKU whose group has exactly one sample (one row, or one
    entry that is present), [get_variance] and [get_std_dev] keep the key
    and give it the value NaN; if the SKU is bound in LSL and USL,
    [get_sigma] keeps it too, with the value NaN: the test [std == 0] is
    false on NaN, and a division by NaN gives NaN. *)
Theorem C10_single_sample_nan
    (df : DataFrame) (sku : string) (σ : Py.pystate) :
  length (group_values sku df) = 1%nat ∨
    length (present (group_values sku df)) = 1%nat →
  ∃ variance_dict std_dict,
    Py.returned_dict (get_variance df) σ = Some variance_dict ∧
    Py.returned_dict (get_std_dev df) σ = Some std_dict ∧
    Py.dict_get variance_dict sku = Some nan ∧
    Py.dict_get std_dict sku = Some nan ∧
    (nan =? 0) = false ∧
    ∀ (LSL USL : Py.ref) (lsl usl : Py.pydict),
      Py.heap σ !! LSL = Some lsl →
      Py.heap σ !! USL = Some usl →
      sku ∈ Py.dict_keys lsl →
      sku ∈ Py.dict_keys usl →
      ∃ sigma_dict,
        Py.returned_dict (get_sigma df LSL USL) σ = Some sigma_dict ∧
        Py.dict_get sigma_dict sku = Some nan.
Proof.
  intros Hone.
  pose proof (present_length (group_values sku df)) as Hle.
  assert (sku ∈ group_keys df) as Hkey.
  { destruct (decide (sku ∈ group_keys df)) as [|Hno]; [done|].
    apply group_values_nil in Hno. rewrite Hno in Hone.
    by destruct Hone. }
  assert (length (present (group_values sku df)) ≤ 1) as Hfew
    by (destruct Hone; lia).
  exists (table (group_var 1 false) df), (table (group_var 1 true) df).
  split; [apply get_variance_returns|].
  split; [apply get_std_dev_returns|].
  rewrite !dict_get_table_group, !decide_True, !group_var_few by done.
  do 3 (split; [done|]).
  intros LSL USL lsl usl HL HU [l Hl]%dict_get_keys [u Hu]%dict_get_keys.
  exists (sigma_table lsl usl df).
  split; [by apply get_sigma_returns|].
  rewrite sigma_table_get. unfold sigma_verdict.
  rewrite Hl, Hu, !dict_get_table_group, !decide_True by done.
  rewrite group_var_few by done.
  change (nan =? 0) with false. cbv iota.
  by rewrite float_div_nan.
Qed.

Lemma C10_single_sample_nan_witness :
  ∃ variance_dict std_dict sigma_dict,
    Py.returned_dict (get_variance rows_single)
      (store [("C"%string, 0)] [("C"%string, 5)]) = Some variance_dict ∧
    Py.returned_dict (get_std_dev rows_single)
      (store [("C"%string, 0)] [("C"%string, 5)]) = Some std_dict ∧
    Py.dict_get variance_dict "C" = Some nan ∧
    Py.dict_get std_dict "C" = Some nan ∧
    Py.returned_dict (get_sigma rows_single 0%nat 1%nat)
      (store [("C"%string, 0)] [("C"%string, 5)]) = Some sigma_dict ∧
    Py.dict_get sigma_dict "C" = Some nan.
Proof.
  destruct (C10_single_sample_nan rows_single "C"
              (store [("C"%string, 0)] [("C"%string, 5)])
              (or_introl eq_refl))
    as (variance_dict & std_dict & Hvar & Hstd & Hv & Hs & _ & Hsigma).
  destruct (Hsigma 0%nat 1%nat [("C"%string, 0)] [("C"%string, 5)]
              eq_refl eq_refl)
    as (sigma_dict & Hret & Hget).
  - apply (proj1 (dict_get_keys _ _)). vm_compute. eauto.
  - apply (proj1 (dict_get_keys _ _)). vm_compute. eauto.
  - by exists variance_dict, std_dict, sigma_dict.
Defined.

(** * Further properties of the engine *)

(** ** Which SKUs get a sigma *)

(** X1. The keys of what [get_sigma] returns are exactly the SKUs of the
    dataset that are bound in LSL and in USL and whose standard deviation
    does not compare equal to 0; they come without repetition, in the order
    of the keys of [get_mean]. *)
Theorem X1_sigma_keys_exact
    (df : DataFrame) (LSL USL : Py.ref) (lsl usl : Py.pydict)
    (σ : Py.pystate) :
  Py.heap σ !! LSL = Some lsl →
  Py.heap σ !! USL = Some usl →
  ∃ sigma_dict mean_dict std_dict,
    Py.returned_dict (get_sigma df LSL USL) σ = Some sigma_dict ∧
    Py.returned_dict (get_mean df) σ = Some mean_dict ∧
    Py.returned_dict (get_std_dev df) σ = Some std_dict ∧
    (∀ sku,
       sku ∈ Py.dict_keys sigma_dict ↔
       sku ∈ Py.dict_keys mean_dict ∧
       sku ∈ Py.dict_keys lsl ∧
       sku ∈ Py.dict_keys usl ∧
       ∃ std, Py.dict_get std_dict sku = Some std ∧ (std =? 0) = false) ∧
    Py.dict_keys sigma_dict `sublist_of` Py.dict_keys mean_dict ∧
    NoDup (Py.dict_keys sigma_dict).
Proof.
  intros HL HU.
  exists (sigma_table lsl usl df), (table group_mean df),
    (table (group_var 1 true) df).
  split; [by apply get_sigma_returns|].
  split; [apply get_mean_returns|].
  split; [apply get_std_dev_returns|].
  split; [|split].
  - intros sku. rewrite <- !dict_get_keys, sigma_table_get.
    unfold sigma_verdict.
    destruct (Py.dict_get lsl sku) as [l|];
      [|split; [by intros [? ?] | by intros (_ & [? ?] & _)]].
    destruct (Py.dict_get usl sku) as [u|];
      [|split; [by intros [? ?] | by intros (_ & _ & [? ?] & _)]].
    destruct (Py.dict_get (table (group_var 1 true) df) sku) as [std|];
      [|split; [by intros [? ?] | by intros (_ & _ & _ & ? & ? & _)]].
    destruct (Py.dict_get (table group_mean df) sku) as [mean|];
      [|split; [by intros [? ?] | by intros ([? ?] & _)]].
    destruct (std =? 0) eqn:Hz.
    + split; [by intros [? ?]|].
      intros (_ & _ & _ & std' & [= <-] & Hz'). congruence.
    + split; [|eauto]. intros _. repeat split; eauto.
  - rewrite sigma_table_keys, table_keys. apply sublist_filter.
  - rewrite sigma_table_keys. apply NoDup_filter, group_keys_NoDup.
Qed.

Lemma X1_sigma_keys_exact_witness :
  ∃ sigma_dict mean_dict std_dict,
    Py.returned_dict (get_sigma rows_two 0%nat 1%nat)
      (store [("A"%string, 60); ("B"%string, 0)] [("B"%string, 4)]) =
      Some sigma_dict ∧
    Py.returned_dict (get_mean rows_two)
      (store [("A"%string, 60); ("B"%string, 0)] [("B"%string, 4)]) =
      Some mean_dict ∧
    Py.returned_dict (get_std_dev rows_two)
      (store [("A"%string, 60); ("B"%string, 0)] [("B"%string, 4)]) =
      Some std_dict ∧
    (∀ sku,
       sku ∈ Py.dict_keys sigma_dict ↔
       sku ∈ Py.dict_keys mean_dict ∧
       sku ∈ Py.dict_keys [("A"%string, 60); ("B"%string, 0)] ∧
       sku ∈ Py.dict_keys [("B"%string, 4)] ∧
       ∃ std, Py.dict_get std_dict sku = Some std ∧ (std =? 0) = false) ∧
    Py.dict_keys sigma_dict `sublist_of` Py.dict_keys mean_dict ∧
    NoDup (Py.dict_keys sigma_dict).
Proof.
  apply (X1_sigma_keys_exact rows_two 0%nat 1%nat
           [("A"%string, 60); ("B"%string, 0)] [("B"%string, 4)]
           (store [("A"%string, 60); ("B"%string, 0)] [("B"%string, 4)]));
    reflexivity.
Defined.

(** ** What [get_sigma] prints *)

(** X2. [get_sigma] prints one warning line for each SKU of the dataset that
    is bound in LSL and in USL and whose standard deviation compares equal
    to 0, in the order of the keys of [get_mean], and nothing else. *)
Theorem X2_printed_exactly_the_warnings
    (df : DataFrame) (LSL USL : Py.ref) (lsl usl : Py.pydict)
    (σ : Py.pystate) :
  Py.heap σ !! LSL = Some lsl →
  Py.heap σ !! USL = Some usl →
  ∃ mean_dict std_dict skus,
    Py.returned_dict (get_mean df) σ = Some mean_dict ∧
    Py.returned_dict (get_std_dev df) σ = Some std_dict ∧
    Py.printed (get_sigma df LSL USL) σ = warning <$> skus ∧
    skus `sublist_of` Py.dict_keys mean_dict ∧
    NoDup skus ∧
    ∀ sku,
      sku ∈ skus ↔
      sku ∈ Py.dict_keys mean_dict ∧
      sku ∈ Py.dict_keys lsl ∧
      sku ∈ Py.dict_keys usl ∧
      ∃ std, Py.dict_get std_dict sku = Some std ∧ (std =? 0) = true.
Proof.
  intros HL HU.
  exists (table group_mean df), (table (group_var 1 true) df),
    (filter (λ sku, warned lsl usl (table group_mean df)
                      (table (group_var 1 true) df) sku) (group_keys df)).
  split; [apply get_mean_returns|].
  split; [apply get_std_dev_returns|].
  split; [by apply get_sigma_printed|].
  rewrite table_keys.
  split; [apply sublist_filter|].
  split; [apply NoDup_filter, group_keys_NoDup|].
  intros sku. rewrite list_elem_of_filter.
  rewrite <- (table_keys group_mean df), <- !dict_get_keys.
  unfold warned, sigma_verdict.
  destruct (Py.dict_get lsl sku) as [l|];
    [|split; [by intros [? _] | by intros (_ & [? ?] & _)]].
  destruct (Py.dict_get usl sku) as [u|];
    [|split; [by intros [? _] | by intros (_ & _ & [? ?] & _)]].
  destruct (Py.dict_get (table (group_var 1 true) df) sku) as [std|];
    [|split; [by intros [? _] | by intros (_ & _ & _ & ? & ? & _)]].
  destruct (Py.dict_get (table group_mean df) sku) as [mean|];
    [|split; [by intros [_ [? ?]] | by intros ([? ?] & _)]].
  destruct (std =? 0) eqn:Hz.
  - split; [|intros _; split; [done | eauto]].
    intros _. repeat split; eauto.
  - split; [by intros [? _]|].
    intros (_ & _ & _ & std' & [= <-] & Hz'). congruence.
Qed.

Lemma X2_printed_exactly_the_warnings_witness :
  ∃ mean_dict std_dict skus,
    Py.returned_dict (get_mean rows_two)
      (store [("A"%string, 60)] [("A"%string, 70)]) = Some mean_dict ∧
    Py.returned_dict (get_std_dev rows_two)
      (store [("A"%string, 60)] [("A"%string, 70)]) = Some std_dict ∧
    Py.printed (get_sigma rows_two 0%nat 1%nat)
      (store [("A"%string, 60)] [("A"%string, 70)]) = warning <$> skus ∧
    skus `sublist_of` Py.dict_keys mean_dict ∧
    NoDup skus ∧
    ∀ sku,
      sku ∈ skus ↔
      sku ∈ Py.dict_keys mean_dict ∧
      sku ∈ Py.dict_keys [("A"%string, 60)] ∧
      sku ∈ Py.dict_keys [("A"%string, 70)] ∧
      ∃ std, Py.dict_get std_dict sku = Some std ∧ (std =? 0) = true.
Proof.
  apply (X2_printed_exactly_the_warnings rows_two 0%nat 1%nat
           [("A"%string, 60)] [("A"%string, 70)]
           (store [("A"%string, 60)] [("A"%string, 70)]));
    reflexivity.
Defined.

(** ** The order of the keys *)

(** X4. The keys of what [get_mean], [get_variance] and [get_std_dev]
    return are the same list: the SKUs of the dataset in ascending order.
    Reordering the rows of the dataset therefore changes neither the keys
    nor their order. *)
Theorem X4_keys_sorted_whatever_the_row_order
    (df df' : DataFrame) (σ σ' : Py.pystate) :
  df ≡ₚ df' →
  ∃ mean_dict variance_dict std_dict mean_dict',
    Py.returned_dict (get_mean df) σ = Some mean_dict ∧
    Py.returned_dict (get_variance df) σ = Some variance_dict ∧
    Py.returned_dict (get_std_dev df) σ = Some std_dict ∧
    Py.returned_dict (get_mean df') σ' = Some mean_dict' ∧
    Sorted String.le (Py.dict_keys mean_dict) ∧
    Py.dict_keys variance_dict = Py.dict_keys mean_dict ∧
    Py.dict_keys std_dict = Py.dict_keys mean_dict ∧
    Py.dict_keys mean_dict' = Py.dict_keys mean_dict.
Proof.
  intros Hperm.
  exists (table group_mean df), (table (group_var 1 false) df),
    (table (group_var 1 true) df), (table group_mean df').
  rewrite !get_mean_returns, get_variance_returns, get_std_dev_returns.
  rewrite !table_keys.
  repeat split; try done.
  - apply group_keys_Sorted.
  - symmetry. by apply group_keys_Permutation.
Qed.

Lemma X4_keys_sorted_whatever_the_row_order_witness :
  ∃ mean_dict variance_dict std_dict mean_dict',
    Py.returned_dict (get_mean [Row "B" 1; Row "A" 2]) (Py.PyState [] []) =
      Some mean_dict ∧
    Py.returned_dict (get_variance [Row "B" 1; Row "A" 2])
      (Py.PyState [] []) = Some variance_dict ∧
    Py.returned_dict (get_std_dev [Row "B" 1; Row "A" 2])
      (Py.PyState [] []) = Some std_dict ∧
    Py.returned_dict (get_mean [Row "A" 2; Row "B" 1]) (Py.PyState [] []) =
      Some mean_dict' ∧
    Sorted String.le (Py.dict_keys mean_dict) ∧
    Py.dict_keys variance_dict = Py.dict_keys mean_dict ∧
    Py.dict_keys std_dict = Py.dict_keys mean_dict ∧
    Py.dict_keys mean_dict' = Py.dict_keys mean_dict.
Proof.
  apply (X4_keys_sorted_whatever_the_row_order
           [Row "B" 1; Row "A" 2] [Row "A" 2; Row "B" 1]
           (Py.PyState [] []) (Py.PyState [] [])).
  apply Permutation_swap.
Defined.

(** ** A limit that is NaN *)

(** X5. [min] keeps its first argument unless the second is smaller, and no
    comparison with NaN holds.  So for a SKU with a nonzero standard
    deviation, a lower limit that is NaN is ignored, sigma being the upper
    margin over the standard deviation, whereas an upper limit that is NaN
    makes sigma NaN. *)
Theorem X5_nan_limit
    (df : DataFrame) (LSL USL : Py.ref) (lsl usl : Py.pydict)
    (σ : Py.pystate) (sku : string) (mean std : float) :
  Py.heap σ !! LSL = Some lsl →
  Py.heap σ !! USL = Some usl →
  entry (get_mean df) σ sku = Some mean →
  entry (get_std_dev df) σ sku = Some std →
  (std =? 0) = false →
  (∀ u,
     Py.dict_get lsl sku = Some nan →
     Py.dict_get usl sku = Some u →
     entry (get_sigma df LSL USL) σ sku = Some ((u - mean) / std)) ∧
  (∀ l,
     Py.dict_get lsl sku = Some l →
     Py.dict_get usl sku = Some nan →
     entry (get_sigma df LSL USL) σ sku = Some nan).
Proof.
  unfold entry. intros HL HU.
  rewrite get_mean_returns, get_std_dev_returns.
  rewrite (get_sigma_returns _ _ _ _ _ _ HL HU), sigma_table_get.
  intros Hmean Hstd Hz. unfold sigma_verdict. rewrite Hmean, Hstd, Hz.
  split.
  - intros u -> ->. unfold Py.min.
    by rewrite float_sub_nan_r, float_ltb_nan_l.
  - intros l -> ->. unfold Py.min.
    by rewrite float_sub_nan_l, float_ltb_nan_r, float_div_nan_l.
Qed.

Lemma X5_nan_limit_witness :
  entry (get_sigma rows_sigma 0%nat 1%nat)
    (store [("A"%string, nan)] [("A"%string, 70)]) "A" =
    Some ((70 - 65) / 2) ∧
  entry (get_sigma rows_sigma 0%nat 1%nat)
    (store [("A"%string, 60)] [("A"%string, nan)]) "A" = Some nan.
Proof.
  split.
  - apply (proj1 (X5_nan_limit rows_sigma 0%nat 1%nat
             [("A"%string, nan)] [("A"%string, 70)]
             (store [("A"%string, nan)] [("A"%string, 70)]) "A" 65 2
             eq_refl eq_refl eq_refl eq_refl eq_refl) 70);
      reflexivity.
  - apply (proj2 (X5_nan_limit rows_sigma 0%nat 1%nat
             [("A"%string, 60)] [("A"%string, nan)]
             (store [("A"%string, 60)] [("A"%string, nan)]) "A" 65 2
             eq_refl eq_refl eq_refl eq_refl eq_refl) 60);
      reflexivity.
Defined.

(** * Properties of the application *)

(** ** The limits as [get_lsl] and [get_usl] read them *)

(** X6. When the query of [get_lsl] or [get_usl] returns rows and none of
    their limits is NULL, the function returns a dictionary that is new in
    the store; its keys are the SKUs of the rows, each once, and a SKU has
    the limit of the last row that lists it, converted by [float].  The
    query is the only call outside; nothing is printed and no other
    dictionary changes. *)
Theorem X6_limits_read {decimal} (env : App.environment decimal)
    (which : limit) (db_name table_name : string) (s : App.state)
    (rows : list (string * option decimal)) :
  App.select_result env
    (App.trace s ++ [select_limit which db_name table_name]) = App.Ok rows →
  Forall (λ row, is_Some row.2) rows →
  ∃ d s' dict,
    get_limit which env db_name table_name s = (App.Ok (Some d), s') ∧
    Py.heap (App.py s) !! d = None ∧
    Py.heap (App.py s') !! d = Some dict ∧
    NoDup (Py.dict_keys dict) ∧
    (∀ sku, sku ∈ Py.dict_keys dict ↔ sku ∈ rows.*1) ∧
    (∀ sku, Py.dict_get dict sku =
            App.float_of_decimal env <$> listed rows sku) ∧
    (∀ r, r ≠ d → Py.heap (App.py s') !! r = Py.heap (App.py s) !! r) ∧
    Py.stdout (App.py s') = Py.stdout (App.py s) ∧
    App.trace s' = App.trace s ++ [select_limit which db_name table_name].
Proof.
  intros Hsel Hrows.
  exists (length (Py.heap (App.py s))).
  exists (App.State
            (Py.PyState (Py.heap (App.py s) ++ [limits env rows])
               (Py.stdout (App.py s)))
            (App.trace s ++ [select_limit which db_name table_name])).
  exists (limits env rows).
  split; [destruct which; by apply fetch_run|].
  cbn [App.py App.trace Py.heap Py.stdout].
  destruct (limits_keys env rows Hrows) as [Hnd Hin].
  split_and!; try done.
  - by apply lookup_ge_None_2.
  - by rewrite lookup_app_r, Nat.sub_diag by done.
  - intros sku. by apply limits_get.
  - intros r Hr. destruct (decide (r < length (Py.heap (App.py s)))).
    + by rewrite lookup_app_l.
    + rewrite !lookup_ge_None_2; [done|lia|]. rewrite length_app. cbn. lia.
Qed.

Lemma X6_limits_read_witness :
  ∃ d s' dict,
    get_limit Upper
      (example_env (App.Ok [])
         (λ _, App.Ok [("A", Some 6800); ("B", Some 12200); ("A", Some 7200)]%Z))
      "quality" "noodles_data" start = (App.Ok (Some d), s') ∧
    Py.heap (App.py start) !! d = None ∧
    Py.heap (App.py s') !! d = Some dict ∧
    NoDup (Py.dict_keys dict) ∧
    (∀ sku, sku ∈ Py.dict_keys dict ↔
            sku ∈ [("A", Some 6800); ("B", Some 12200); ("A", Some 7200)]%Z.*1) ∧
    (∀ sku, Py.dict_get dict sku =
            hundredths <$>
            listed [("A", Some 6800); ("B", Some 12200); ("A", Some 7200)]%Z
              sku) ∧
    (∀ r, r ≠ d → Py.heap (App.py s') !! r = Py.heap (App.py start) !! r) ∧
    Py.stdout (App.py s') = Py.stdout (App.py start) ∧
    App.trace s' =
    App.trace start ++ [select_limit Upper "quality" "noodles_data"].
Proof.
  apply (X6_limits_read
           (example_env (App.Ok [])
              (λ _, App.Ok [("A", Some 6800); ("B", Some 12200);
                            ("A", Some 7200)]%Z))
           Upper "quality" "noodles_data" start).
  - reflexivity.
  - repeat constructor; by eexists.
Defined.

(** ** A limit that is NULL *)

(** X7. When a row of the query has NULL for its limit, [get_lsl] and
    [get_usl] raise [TypeError]: the handler for the errors of the database
    does not catch it and logs nothing.  The dictionaries that existed are
    unchanged. *)
Theorem X7_null_limit_raises {decimal} (env : App.environment decimal)
    (which : limit) (db_name table_name : string) (s : App.state)
    (rows : list (string * option decimal)) :
  App.select_result env
    (App.trace s ++ [select_limit which db_name table_name]) = App.Ok rows →
  Exists (λ row, row.2 = None) rows →
  ∃ s',
    get_limit which env db_name table_name s = (App.Err App.TypeError, s') ∧
    (∀ r, r < length (Py.heap (App.py s)) →
          Py.heap (App.py s') !! r = Py.heap (App.py s) !! r) ∧
    Py.stdout (App.py s') = Py.stdout (App.py s) ∧
    App.trace s' = App.trace s ++ [select_limit which db_name table_name].
Proof.
  intros Hsel Hrows.
  assert (∃ acc',
    get_limit which env db_name table_name s =
    (App.Err App.TypeError,
     App.State
       (Py.PyState (Py.heap (App.py s) ++ [acc']) (Py.stdout (App.py s)))
       (App.trace s ++ [select_limit which db_name table_name])))
    as [acc' ->] by (destruct which; by eapply fetch_null).
  eexists. split; [done|]. cbn [App.py App.trace Py.heap Py.stdout].
  split_and!; try done.
  intros r Hr. by rewrite lookup_app_l.
Qed.

Lemma X7_null_limit_raises_witness :
  ∃ s',
    get_limit Lower
      (example_env (App.Ok [])
         (λ _, App.Ok [("A", Some 6200); ("B", None)]%Z))
      "quality" "noodles_data" start = (App.Err App.TypeError, s') ∧
    (∀ r, r < length (Py.heap (App.py start)) →
          Py.heap (App.py s') !! r = Py.heap (App.py start) !! r) ∧
    Py.stdout (App.py s') = Py.stdout (App.py start) ∧
    App.trace s' =
    App.trace start ++ [select_limit Lower "quality" "noodles_data"].
Proof.
  apply (X7_null_limit_raises
           (example_env (App.Ok [])
              (λ _, App.Ok [("A", Some 6200); ("B", None)]%Z))
           Lower "quality" "noodles_data" start
           [("A", Some 6200); ("B", None)]%Z).
  - reflexivity.
  - apply Exists_cons_tl, Exists_cons_hd. reflexivity.
Defined.

(** ** [get_sigma] when a limits query has failed *)

(** X8. [get_lsl] and [get_usl] give [None] after an error of the database.
    With [None] for the lower limits, [get_sigma] raises [TypeError] unless
    the dataset is empty.  With a dictionary for the lower limits and
    [None] for the upper ones, it raises [TypeError] exactly when a SKU of
    the dataset has a lower limit; otherwise it returns the empty
    dictionary.  In each case nothing is printed. *)
Theorem X8_sigma_without_limits (df : DataFrame) (USL : option Py.ref)
    (LSL : Py.ref) (lsl : Py.pydict) (s : App.state) :
  Py.heap (App.py s) !! LSL = Some lsl →
  ends_with (App.get_sigma df None USL) s
    (if decide (df = []) then App.Ok [] else App.Err App.TypeError) ∧
  ends_with (App.get_sigma df (Some LSL) None) s
    (if decide (Exists (λ r, Sku r ∈ Py.dict_keys lsl) df)
     then App.Err App.TypeError else App.Ok []).
Proof.
  intros HL. destruct s as [[H out] t]. cbn [App.py Py.heap] in HL.
  unfold ends_with. split.
  - rewrite app_get_sigma_run, get_sigma_loop_no_lsl.
    destruct (decide (df = [])) as [->|Hne].
    + change (group_keys []) with (@nil string).
      eexists. split_and!; cycle 2.
      { eexists. split; [done|].
        cbn [App.py Py.heap]. rewrite lookup_app_r by lia.
        by replace (S (S (length H)) - length H)%nat with 2%nat by lia. }
      all: done.
    + destruct (group_keys df) as [|k ks] eqn:Hk.
      * exfalso. destruct df as [|r df]; [done|].
        assert (Sku r ∈ group_keys (r :: df)) as Hin
          by (apply elem_of_group_keys; exists r; split; [left | done]).
        rewrite Hk in Hin. by apply elem_of_nil in Hin.
      * by eexists; split_and!; cycle 2.
  - rewrite app_get_sigma_run.
    rewrite (get_sigma_loop_no_usl LSL lsl).
    2:{ cbn [Py.heap]. rewrite lookup_app_l; [done|].
        by apply lookup_lt_Some in HL. }
    destruct (decide (Exists (λ sku, sku ∈ Py.dict_keys lsl) (group_keys df)))
      as [Hex|Hex].
    + rewrite decide_True; [by eexists; split_and!; cycle 2|].
      apply Exists_exists in Hex as (sku & Hin & Hsku).
      apply elem_of_group_keys in Hin as (r & Hr & <-).
      apply Exists_exists. eauto.
    + rewrite decide_False.
      * eexists. split_and!; cycle 2.
        { eexists. split; [done|].
          cbn [App.py Py.heap]. rewrite lookup_app_r by lia.
          by replace (S (S (length H)) - length H)%nat with 2%nat by lia. }
        all: done.
      * intros (r & Hr & Hsku)%Exists_exists. apply Hex.
        apply Exists_exists. exists (Sku r). split; [|done].
        apply elem_of_group_keys. eauto.
Qed.

Lemma X8_sigma_without_limits_witness :
  ends_with (App.get_sigma rows_two None (Some 0%nat))
    (App.State (store [("A", 62)] [("A", 68)]) [])
    (if decide (rows_two = []) then App.Ok [] else App.Err App.TypeError) ∧
  ends_with (App.get_sigma rows_two (Some 0%nat) None)
    (App.State (store [("A", 62)] [("A", 68)]) [])
    (if decide (Exists (λ r, Sku r ∈ Py.dict_keys [("A", 62)]) rows_two)
     then App.Err App.TypeError else App.Ok []).
Proof.
  apply (X8_sigma_without_limits rows_two (Some 0%nat) 0%nat [("A", 62)]
           (App.State (store [("A", 62)] [("A", 68)]) [])).
  reflexivity.
Defined.

(** ** One run of the analysis *)

(** X9. A run of [do_analysis] in which the sheet is read, both queries
    return rows without NULL and the calls to the database return: it
    returns, having asked for the limits of the table "noodles_data" and
    then written, entry by entry, the dictionary that [get_mean] returns
    for the dataset, then the one of [get_variance], then the one of
    [get_std_dev], then the one that [get_sigma] returns for the dataset
    and the limits read; the chart is drawn if asked for and the end is
    logged.  It has printed what [get_sigma] prints, and the dictionaries
    that existed are unchanged. *)
Theorem X9_analysis_writes_the_statistics {decimal}
    (env : App.environment decimal) (s : App.state) (df : DataFrame)
    (lrows urows : list (string * option decimal)) :
  (∀ t, App.call_result env t = App.Ok tt) →
  App.read_excel_result env
    (App.trace s ++ [App.ReadExcel (App.EXCEL_FILE env)]) = App.Ok df →
  App.select_result env
    (App.trace s ++ opening env ++
     [select_lsl (App.DB_NAME env) "noodles_data"]) = App.Ok lrows →
  App.select_result env
    (App.trace s ++ opening env ++
     [select_lsl (App.DB_NAME env) "noodles_data";
      select_usl (App.DB_NAME env) "noodles_data"]) = App.Ok urows →
  Forall (λ row, is_Some row.2) lrows →
  Forall (λ row, is_Some row.2) urows →
  ∃ s' mean_dict variance_dict std_dict sigma_dict warnings,
    App.do_analysis env s = (App.Ok tt, s') ∧
    (∀ σ, Py.returned_dict (get_mean df) σ = Some mean_dict) ∧
    (∀ σ, Py.returned_dict (get_variance df) σ = Some variance_dict) ∧
    (∀ σ, Py.returned_dict (get_std_dev df) σ = Some std_dict) ∧
    (∀ σ LSL USL,
       Py.heap σ !! LSL = Some (limits env lrows) →
       Py.heap σ !! USL = Some (limits env urows) →
       Py.returned_dict (get_sigma df LSL USL) σ = Some sigma_dict ∧
       Py.printed (get_sigma df LSL USL) σ = warnings) ∧
    App.trace s' =
    App.trace s ++ opening env ++
    [select_lsl (App.DB_NAME env) "noodles_data";
     select_usl (App.DB_NAME env) "noodles_data"] ++
    results env mean_dict variance_dict std_dict sigma_dict ++
    closing env ∧
    Py.stdout (App.py s') = Py.stdout (App.py s) ++ warnings ∧
    ∀ r, r < length (Py.heap (App.py s)) →
         Py.heap (App.py s') !! r = Py.heap (App.py s) !! r.
Proof.
  intros Hcalls Hsheet Hlower Hupper Hl Hu.
  eexists _, (table group_mean df), (table (group_var 1 false) df),
    (table (group_var 1 true) df),
    (sigma_table (limits env lrows) (limits env urows) df),
    (sigma_warnings (limits env lrows) (limits env urows) df).
  split.
  { by apply (do_analysis_run env s df lrows urows). }
  cbn [App.py App.trace Py.heap Py.stdout].
  split; [intros σ; apply get_mean_returns|].
  split; [intros σ; apply get_variance_returns|].
  split; [intros σ; apply get_std_dev_returns|].
  split.
  { intros σ LSL USL HL HU. split.
    - by apply get_sigma_returns.
    - by apply get_sigma_printed. }
  split_and!; try done.
  intros r Hr. by rewrite lookup_app_l.
Qed.

Lemma X9_analysis_writes_the_statistics_witness :
  ∃ s' mean_dict variance_dict std_dict sigma_dict warnings,
    App.do_analysis
      (example_env (App.Ok rows_two)
         (answers (App.Ok lower_rows) (App.Ok upper_rows))) start =
    (App.Ok tt, s') ∧
    (∀ σ, Py.returned_dict (get_mean rows_two) σ = Some mean_dict) ∧
    (∀ σ, Py.returned_dict (get_variance rows_two) σ = Some variance_dict) ∧
    (∀ σ, Py.returned_dict (get_std_dev rows_two) σ = Some std_dict) ∧
    (∀ σ LSL USL,
       Py.heap σ !! LSL =
         Some (limits (example_env (App.Ok rows_two)
                         (answers (App.Ok lower_rows) (App.Ok upper_rows)))
                 lower_rows) →
       Py.heap σ !! USL =
         Some (limits (example_env (App.Ok rows_two)
                         (answers (App.Ok lower_rows) (App.Ok upper_rows)))
                 upper_rows) →
       Py.returned_dict (get_sigma rows_two LSL USL) σ = Some sigma_dict ∧
       Py.printed (get_sigma rows_two LSL USL) σ = warnings) ∧
    App.trace s' =
    App.trace start ++
    opening (example_env (App.Ok rows_two)
               (answers (App.Ok lower_rows) (App.Ok upper_rows))) ++
    [select_lsl "quality" "noodles_data";
     select_usl "quality" "noodles_data"] ++
    results (example_env (App.Ok rows_two)
               (answers (App.Ok lower_rows) (App.Ok upper_rows)))
      mean_dict variance_dict std_dict sigma_dict ++
    closing (example_env (App.Ok rows_two)
               (answers (App.Ok lower_rows) (App.Ok upper_rows))) ∧
    Py.stdout (App.py s') = Py.stdout (App.py start) ++ warnings ∧
    ∀ r, r < length (Py.heap (App.py start)) →
         Py.heap (App.py s') !! r = Py.heap (App.py start) !! r.
Proof.
  apply (X9_analysis_writes_the_statistics
           (example_env (App.Ok rows_two)
              (answers (App.Ok lower_rows) (App.Ok upper_rows)))
           start rows_two lower_rows upper_rows).
  - intros t. reflexivity.
  - reflexivity.
  - reflexivity.
  - reflexivity.
  - repeat constructor; by eexists.
  - repeat constructor; by eexists.
Defined.

(** ** The analysis when the limits cannot be read *)

(** X10. When the query of the lower limits fails with an error of the
    database and the dataset has a row, [do_analysis] does not return: the
    error is logged, the upper limits are asked for, and then an exception
    ends the run, [TypeError] unless the second query raised another one
    or does not answer.  Nothing is written to the database, no chart is
    drawn, nothing is printed. *)
Theorem X10_analysis_without_lower_limits {decimal}
    (env : App.environment decimal) (s : App.state) (df : DataFrame)
    (msg : string) :
  (∀ t, App.call_result env t = App.Ok tt) →
  App.read_excel_result env
    (App.trace s ++ [App.ReadExcel (App.EXCEL_FILE env)]) = App.Ok df →
  df ≠ [] →
  App.select_result env
    (App.trace s ++ opening env ++
     [select_lsl (App.DB_NAME env) "noodles_data"]) =
  App.Err (App.MysqlError msg) →
  ∃ r s' evs,
    App.do_analysis env s = (r, s') ∧
    (∀ u, r ≠ App.Ok u) ∧
    match
      App.select_result env
        (App.trace s ++ opening env ++
         [select_lsl (App.DB_NAME env) "noodles_data";
          App.Log App.ERROR ("Error getting LSL: " +:+ msg);
          select_usl (App.DB_NAME env) "noodles_data"])
    with
    | App.Ok _ | App.Err (App.MysqlError _) => r = App.Err App.TypeError
    | App.Err e => r = App.Err e
    | App.Diverge => r = App.Diverge
    end ∧
    App.trace s' =
    App.trace s ++ opening env ++
    [select_lsl (App.DB_NAME env) "noodles_data";
     App.Log App.ERROR ("Error getting LSL: " +:+ msg);
     select_usl (App.DB_NAME env) "noodles_data"] ++ evs ∧
    Forall (λ e, is_write e = false) evs ∧
    Py.stdout (App.py s') = Py.stdout (App.py s).
Proof.
  intros Hcalls Hsheet Hdf Hlower.
  destruct (do_analysis_lower_fails env s df msg Hcalls Hsheet Hdf Hlower)
    as (p & Hrun & Hout).
  match type of Hrun with
  | context [App.select_result env ?t] =>
      remember (App.select_result env t) as answer eqn:Hanswer
  end.
  clear Hanswer. rewrite Hrun.
  destruct answer as [rows|[|msg'|e|name]|];
    (eexists _, _, _; split; [reflexivity|]; cbn [App.py App.trace];
     split_and!; try done; by repeat constructor).
Qed.

Lemma X10_analysis_without_lower_limits_witness :
  ∃ r s' evs,
    App.do_analysis
      (example_env (App.Ok rows_two)
         (answers (App.Err (App.MysqlError "gone"))
            (App.Err (App.MysqlError "gone")))) start = (r, s') ∧
    (∀ u, r ≠ App.Ok u) ∧
    match
      App.select_result
        (example_env (App.Ok rows_two)
           (answers (App.Err (App.MysqlError "gone"))
              (App.Err (App.MysqlError "gone"))))
        (App.trace start ++
         opening (example_env (App.Ok rows_two)
                    (answers (App.Err (App.MysqlError "gone"))
                       (App.Err (App.MysqlError "gone")))) ++
         [select_lsl "quality" "noodles_data";
          App.Log App.ERROR ("Error getting LSL: " +:+ "gone");
          select_usl "quality" "noodles_data"])
    with
    | App.Ok _ | App.Err (App.MysqlError _) => r = App.Err App.TypeError
    | App.Err e => r = App.Err e
    | App.Diverge => r = App.Diverge
    end ∧
    App.trace s' =
    App.trace start ++
    opening (example_env (App.Ok rows_two)
               (answers (App.Err (App.MysqlError "gone"))
                  (App.Err (App.MysqlError "gone")))) ++
    [select_lsl "quality" "noodles_data";
     App.Log App.ERROR ("Error getting LSL: " +:+ "gone");
     select_usl "quality" "noodles_data"] ++ evs ∧
    Forall (λ e, is_write e = false) evs ∧
    Py.stdout (App.py s') = Py.stdout (App.py start).
Proof.
  apply (X10_analysis_without_lower_limits
           (example_env (App.Ok rows_two)
              (answers (App.Err (App.MysqlError "gone"))
                 (App.Err (App.MysqlError "gone"))))
           start rows_two "gone").
  - intros t. reflexivity.
  - reflexivity.
  - discriminate.
  - reflexivity.
Defined.

(** X11. When the lower limits are read and the query of the upper limits
    fails with an error of the database, what [do_analysis] does depends
    on the dataset.  If one of its SKUs has a lower limit, [TypeError]
    ends the run before anything is written.  If none has, the run
    returns as after a success: the dictionaries that [get_mean],
    [get_variance] and [get_std_dev] return for the dataset are written
    entry by entry, no sigma level is, and the end is logged. *)
Theorem X11_analysis_without_upper_limits {decimal}
    (env : App.environment decimal) (s : App.state) (df : DataFrame)
    (msg : string) (lrows : list (string * option decimal)) :
  (∀ t, App.call_result env t = App.Ok tt) →
  App.read_excel_result env
    (App.trace s ++ [App.ReadExcel (App.EXCEL_FILE env)]) = App.Ok df →
  App.select_result env
    (App.trace s ++ opening env ++
     [select_lsl (App.DB_NAME env) "noodles_data"]) = App.Ok lrows →
  Forall (λ row, is_Some row.2) lrows →
  App.select_result env
    (App.trace s ++ opening env ++
     [select_lsl (App.DB_NAME env) "noodles_data";
      select_usl (App.DB_NAME env) "noodles_data"]) =
  App.Err (App.MysqlError msg) →
  ∃ r s' mean_dict variance_dict std_dict,
    App.do_analysis env s = (r, s') ∧
    Py.stdout (App.py s') = Py.stdout (App.py s) ∧
    (∀ σ, Py.returned_dict (get_mean df) σ = Some mean_dict) ∧
    (∀ σ, Py.returned_dict (get_variance df) σ = Some variance_dict) ∧
    (∀ σ, Py.returned_dict (get_std_dev df) σ = Some std_dict) ∧
    (Exists (λ r, Sku r ∈ lrows.*1) df →
     r = App.Err App.TypeError ∧
     App.trace s' =
     App.trace s ++ opening env ++
     [select_lsl (App.DB_NAME env) "noodles_data";
      select_usl (App.DB_NAME env) "noodles_data";
      App.Log App.ERROR ("Error getting USL: " +:+ msg)]) ∧
    (¬ Exists (λ r, Sku r ∈ lrows.*1) df →
     r = App.Ok tt ∧
     App.trace s' =
     App.trace s ++ opening env ++
     [select_lsl (App.DB_NAME env) "noodles_data";
      select_usl (App.DB_NAME env) "noodles_data";
      App.Log App.ERROR ("Error getting USL: " +:+ msg)] ++
     statistics env mean_dict variance_dict std_dict ++ closing env).
Proof.
  intros Hcalls Hsheet Hlower Hl Hupper.
  destruct (do_analysis_upper_fails env s df msg lrows Hcalls Hsheet Hlower
              Hl Hupper) as (p & Hrun & Hout).
  eexists _, _, (table group_mean df), (table (group_var 1 false) df),
    (table (group_var 1 true) df).
  split; [exact Hrun|]. cbn [App.py App.trace].
  split; [done|].
  split; [intros σ; apply get_mean_returns|].
  split; [intros σ; apply get_variance_returns|].
  split; [intros σ; apply get_std_dev_returns|].
  destruct (decide (Exists (λ r, Sku r ∈ lrows.*1) df)) as [Hex|Hex].
  - split; [|done]. intros _. by rewrite app_nil_r.
  - split; [done|]. by intros _.
Qed.

Lemma X11_analysis_without_upper_limits_witness :
  ∃ r s' mean_dict variance_dict std_dict,
    App.do_analysis
      (example_env (App.Ok rows_two)
         (answers (App.Ok [("C", Some 100%Z)])
            (App.Err (App.MysqlError "gone")))) start = (r, s') ∧
    Py.stdout (App.py s') = Py.stdout (App.py start) ∧
    (∀ σ, Py.returned_dict (get_mean rows_two) σ = Some mean_dict) ∧
    (∀ σ, Py.returned_dict (get_variance rows_two) σ = Some variance_dict) ∧
    (∀ σ, Py.returned_dict (get_std_dev rows_two) σ = Some std_dict) ∧
    r = App.Ok tt ∧
    App.trace s' =
    App.trace start ++
    opening (example_env (App.Ok rows_two)
               (answers (App.Ok [("C", Some 100%Z)])
                  (App.Err (App.MysqlError "gone")))) ++
    [select_lsl "quality" "noodles_data";
     select_usl "quality" "noodles_data";
     App.Log App.ERROR ("Error getting USL: " +:+ "gone")] ++
    statistics (example_env (App.Ok rows_two)
                  (answers (App.Ok [("C", Some 100%Z)])
                     (App.Err (App.MysqlError "gone"))))
      mean_dict variance_dict std_dict ++
    closing (example_env (App.Ok rows_two)
               (answers (App.Ok [("C", Some 100%Z)])
                  (App.Err (App.MysqlError "gone")))).
Proof.
  destruct (X11_analysis_without_upper_limits
              (example_env (App.Ok rows_two)
                 (answers (App.Ok [("C", Some 100%Z)])
                    (App.Err (App.MysqlError "gone"))))
              start rows_two "gone" [("C", Some 100%Z)]
              (λ _, eq_refl) eq_refl eq_refl
              ltac:(repeat constructor; by eexists)
              eq_refl)
    as (r & s' & mean_dict & variance_dict & std_dict & Hrun & Hout & Hmean &
        Hvar & Hstd & _ & Hnone).
  exists r, s', mean_dict, variance_dict, std_dict.
  split; [exact Hrun|]. split; [exact Hout|].
  split; [exact Hmean|]. split; [exact Hvar|]. split; [exact Hstd|].
  apply Hnone. apply (bool_decide_eq_false_1 _). reflexivity.
Defined.

(** X12. When a row of the lower limits has NULL for its limit,
    [do_analysis] ends with [TypeError] as soon as the rows are read: the
    upper limits are not asked for and nothing is written or printed,
    whatever the dataset. *)
Theorem X12_analysis_with_a_null_limit {decimal}
    (env : App.environment decimal) (s : App.state) (df : DataFrame)
    (lrows : list (string * option decimal)) :
  (∀ t, App.call_result env t = App.Ok tt) →
  App.read_excel_result env
    (App.trace s ++ [App.ReadExcel (App.EXCEL_FILE env)]) = App.Ok df →
  App.select_result env
    (App.trace s ++ opening env ++
     [select_lsl (App.DB_NAME env) "noodles_data"]) = App.Ok lrows →
  Exists (λ row, row.2 = None) lrows →
  ∃ s',
    App.do_analysis env s = (App.Err App.TypeError, s') ∧
    App.trace s' =
    App.trace s ++ opening env ++
    [select_lsl (App.DB_NAME env) "noodles_data"] ∧
    Py.stdout (App.py s') = Py.stdout (App.py s).
Proof.
  intros Hcalls Hsheet Hlower Hnull.
  destruct (do_analysis_lower_null env s df lrows Hcalls Hsheet Hlower Hnull)
    as (p & Hrun & Hout).
  eexists. split; [exact Hrun|]. by cbn [App.py App.trace].
Qed.

Lemma X12_analysis_with_a_null_limit_witness :
  ∃ s',
    App.do_analysis
      (example_env (App.Ok rows_two)
         (answers (App.Ok [("A", Some 6200%Z); ("C", None)])
            (App.Ok upper_rows))) start = (App.Err App.TypeError, s') ∧
    App.trace s' =
    App.trace start ++
    opening (example_env (App.Ok rows_two)
               (answers (App.Ok [("A", Some 6200%Z); ("C", None)])
                  (App.Ok upper_rows))) ++
    [select_lsl "quality" "noodles_data"] ∧
    Py.stdout (App.py s') = Py.stdout (App.py start).
Proof.
  apply (X12_analysis_with_a_null_limit
           (example_env (App.Ok rows_two)
              (answers (App.Ok [("A", Some 6200%Z); ("C", None)])
                 (App.Ok upper_rows)))
           start rows_two [("A", Some 6200%Z); ("C", None)]).
  - intros t. reflexivity.
  - reflexivity.
  - reflexivity.
  - apply Exists_cons_tl, Exists_cons_hd. reflexivity.
Defined.
